(** * TensorflowVision/trainv1_MobileNetV2.py: data pipeline, training
      configuration and exporter, embedded shallowly.

    Conventions of the embedding.
    - A Python [str] is a [string], a sequence of one-byte characters.
      Manifests and paths are taken to be ASCII text: [isspace] and the
      digits of [int] are Python's on that range, and any other byte is
      an ordinary character.
    - Integers are [Z]; lengths and indices are [nat].
    - A float32 scalar is [fval]: either NaN or an exact rational.  Every
      arithmetic step the script performs on pixels (division by 255, adding
      the brightness offset, clamping) is monotone, so range facts proved
      on rationals carry over to the rounded values.
    - [print] appends to a list of output lines; a raised exception is the
      [Raise] outcome.  Both are threaded by the [io] monad.
    - The file system is a finite map from path to content.
    - Random draws (NumPy permutations, TensorFlow augmentation draws) are
      read from explicit tapes.
    - Calls into OpenCV, NumPy, TensorFlow and Keras are described by what
      the libraries document for the call made.  The image decoder,
      [cv2.resize] and the TFLite converter are parameters. *)

From Stdlib Require Import ZArith QArith Qminmax Lia List Ascii String Permutation.
From Stdlib Require Import DecimalString DecimalNat.
From Stdlib.Strings Require Import Byte.
From stdpp Require Import base list strings gmap.

Local Open Scope string_scope.
Local Open Scope list_scope.

(** ** Python builtins used by the script *)

Module Py.

Inductive exn : Type :=
| ValueError
| FileNotFoundError
| IndexError
| TypeError
| InvalidArgumentError.

(** [str(e)], up to the message text. *)
Definition str_of_exn (e : exn) : string :=
  match e with
  | ValueError => "ValueError"
  | FileNotFoundError => "FileNotFoundError"
  | IndexError => "IndexError"
  | TypeError => "TypeError"
  | InvalidArgumentError => "InvalidArgumentError"
  end.

Inductive result (A : Type) : Type :=
| Ok (a : A)
| Raise (e : exn).
Arguments Ok {A} a.
Arguments Raise {A} e.

(** Output lines printed so far, and the outcome. *)
Definition io (A : Type) : Type := (list string * result A)%type.

Definition ret {A} (a : A) : io A := ([], Ok a).
Definition raise {A} (e : exn) : io A := ([], Raise e).
Definition print (line : string) : io unit := ([line], Ok tt).
Definition bind {A B} (f : A -> io B) (m : io A) : io B :=
  match m with
  | (out, Ok a) => let '(out', r) := f a in (out ++ out', r)
  | (out, Raise e) => (out, Raise e)
  end.
Definition lift {A} (r : result A) : io A := ([], r).

Definition outcome {A} (m : io A) : result A := snd m.

(** [str.isspace] on one-byte characters: TAB..CR, FS..US and space. *)
Definition isspace (c : ascii) : bool :=
  let n := nat_of_ascii c in
  ((9 <=? n)%nat && (n <=? 13)%nat) || ((28 <=? n)%nat && (n <=? 32)%nat).

Fixpoint mem_char (c : ascii) (chars : string) : bool :=
  match chars with
  | EmptyString => false
  | String d rest => Ascii.eqb c d || mem_char c rest
  end.

(** [s.lstrip(chars)] drops the longest prefix made of characters that
    occur in [chars]; [chars] is a set of characters, not a prefix. *)
Fixpoint lstrip_by (p : ascii -> bool) (s : string) : string :=
  match s with
  | EmptyString => EmptyString
  | String c rest => if p c then lstrip_by p rest else s
  end.

Fixpoint rstrip_by (p : ascii -> bool) (s : string) : string :=
  match s with
  | EmptyString => EmptyString
  | String c rest =>
      match rstrip_by p rest with
      | EmptyString => if p c then EmptyString else String c EmptyString
      | kept => String c kept
      end
  end.

Definition lstrip (chars : string) (s : string) : string :=
  lstrip_by (fun c => mem_char c chars) s.

(** [s.strip()] *)
Definition strip (s : string) : string :=
  rstrip_by isspace (lstrip_by isspace s).

(** [s.split()]: maximal runs of non-space characters, left to right. *)
Fixpoint split_from (cur : string) (s : string) : list string :=
  match s with
  | EmptyString => match cur with EmptyString => [] | _ => [cur] end
  | String c rest =>
      if isspace c then
        match cur with
        | EmptyString => split_from EmptyString rest
        | _ => cur :: split_from EmptyString rest
        end
      else split_from (cur +:+ String c EmptyString) rest
  end.

Definition split (s : string) : list string := split_from EmptyString s.

Definition digit_of (c : ascii) : option Z :=
  let n := nat_of_ascii c in
  if (48 <=? n)%nat && (n <=? 57)%nat then Some (Z.of_nat (n - 48)) else None.

(** Decimal digits with single underscores allowed between two digits. *)
Fixpoint int_digits (acc : Z) (after_digit : bool) (s : string) : option Z :=
  match s with
  | EmptyString => if after_digit then Some acc else None
  | String c rest =>
      match digit_of c with
      | Some d => int_digits (10 * acc + d) true rest
      | None =>
          if Ascii.eqb c "_" && after_digit then int_digits acc false rest
          else None
      end
  end.

(** [int(s)] in base 10, for a string of any length. *)
Definition int (s : string) : result Z :=
  let s := strip s in
  let '(neg, body) :=
    match s with
    | String "-" rest => (true, rest)
    | String "+" rest => (false, rest)
    | _ => (false, s)
    end in
  match int_digits 0 false body with
  | Some n => Ok (if neg then (- n)%Z else n)
  | None => Raise ValueError
  end.

(** [str(n)] for a length. *)
Definition str_of_nat (n : nat) : string :=
  NilZero.string_of_uint (Nat.to_uint n).

Definition startswith_sep (s : string) : bool :=
  match s with String "/" _ => true | _ => false end.

Fixpoint endswith_sep (s : string) : bool :=
  match s with
  | EmptyString => false
  | String c EmptyString => Ascii.eqb c "/"
  | String _ rest => endswith_sep rest
  end.

(** [os.path.join(a, b)] (posixpath). *)
Definition path_join (a b : string) : string :=
  if startswith_sep b then b
  else if match a with EmptyString => true | _ => endswith_sep a end then a +:+ b
  else a +:+ "/" +:+ b.

Definition LF : ascii := "010".
Definition CR : ascii := "013".

(** Iterating a file opened in text mode: lines keep their terminator,
    and "\r\n" or a lone "\r" is delivered as "\n". *)
Fixpoint lines_from (cur : string) (s : string) : list string :=
  match s with
  | EmptyString => match cur with EmptyString => [] | _ => [cur] end
  | String c rest =>
      if Ascii.eqb c LF then (cur +:+ String LF EmptyString) :: lines_from EmptyString rest
      else if Ascii.eqb c CR then
        match rest with
        | String d rest' =>
            if Ascii.eqb d LF
            then (cur +:+ String LF EmptyString) :: lines_from EmptyString rest'
            else (cur +:+ String LF EmptyString) :: lines_from EmptyString rest
        | EmptyString => [cur +:+ String LF EmptyString]
        end
      else lines_from (cur +:+ String c EmptyString) rest
  end.

Definition file_lines (content : string) : list string :=
  lines_from EmptyString content.

(** [open(path, 'r')] on a file system. *)
Definition open_r (fs : gmap string string) (path : string) : result string :=
  match fs !! path with
  | Some content => Ok content
  | None => Raise FileNotFoundError
  end.

End Py.

#[global] Instance io_ret : MRet Py.io := @Py.ret.
#[global] Instance io_bind : MBind Py.io := @Py.bind.

(** ** Constants of the script *)

Definition IMG_SIZE : nat := 224.
Definition BATCH_SIZE : nat := 32.
Definition NUM_CLASSES : nat := 40.

(** ** GarbageDataset.__init__ *)

Record GarbageDataset : Type := {
  root_dir : string;
  is_training : bool;
  data : list (string * Z);
  num_samples : nat
}.

(** The body of the [for line in f] loop: what one line appends. *)
Definition sample_of_line (line : string) : Py.result (string * Z) :=
  match Py.split (Py.strip line) with
  | [img_path; label] =>
      let img_path := Py.lstrip "./" img_path in
      match Py.int label with
      | Py.Ok n => Py.Ok (img_path, n)
      | Py.Raise e => Py.Raise e
      end
  | _ => Py.Raise Py.ValueError
  end.

Fixpoint read_samples (lines : list string) (data : list (string * Z))
  : Py.result (list (string * Z)) :=
  match lines with
  | [] => Py.Ok data
  | line :: rest =>
      match sample_of_line line with
      | Py.Ok s => read_samples rest (data ++ [s])
      | Py.Raise e => Py.Raise e
      end
  end.

Definition GarbageDataset_init (fs : gmap string string)
    (root_dir txt_file : string) (is_training : bool) : Py.io GarbageDataset :=
  f ← Py.lift (Py.open_r fs (Py.path_join root_dir txt_file));
  data ← Py.lift (read_samples (Py.file_lines f) []);
  let num_samples := length data in
  _ ← Py.print ("加载了 " +:+ Py.str_of_nat num_samples +:+ " 个样本");
  mret {| root_dir := root_dir; is_training := is_training;
          data := data; num_samples := num_samples |}.

(** ** Arrays and the TensorFlow / NumPy / OpenCV operations used *)

Module Tensor.

Inductive dtype : Type := uint8 | int32 | float16 | float32.

(** A float32 scalar. *)
Inductive fval : Type :=
| NaN
| Fin (q : Q).

(** A rank-3 float array, indexed [row][column][channel]. *)
Record tensor : Type := {
  t_dtype : dtype;
  t_values : list (list (list fval))
}.

(** What [cv2.imread] returns with its default flag: rows of 3-channel
    8-bit pixels, in B, G, R order. *)
Definition mat : Type := list (list (byte * byte * byte)).

Definition map3 {A B} (f : A -> B) (v : list (list (list A))) : list (list (list B)) :=
  map (map (map f)) v.

Definition shape_is {A} (h w c : nat) (v : list (list (list A))) : bool :=
  (length v =? h)%nat &&
  forallb (fun row => (length row =? w)%nat &&
                      forallb (fun px => (length px =? c)%nat) row) v.

Definition all3 {A} (P : A -> Prop) (v : list (list (list A))) : Prop :=
  Forall (Forall (Forall P)) v.

Definition full (h w c : nat) (x : fval) : list (list (list fval)) :=
  repeat (repeat (repeat x c) w) h.

(** [np.zeros((h, w, c), dtype=np.float32)] and [tf.zeros] alike. *)
Definition zeros (h w c : nat) : tensor :=
  {| t_dtype := float32; t_values := full h w c (Fin 0) |}.

(** [cv2.cvtColor(img, cv2.COLOR_BGR2RGB)] *)
Definition cvtColor_BGR2RGB (m : mat) : mat :=
  map (map (fun '(b, g, r) => (r, g, b))) m.

Definition Q_of_byte (b : byte) : Q := inject_Z (Z.of_N (Byte.to_N b)).

(** [img.astype(np.float32) / 255.0] *)
Definition astype_float32_div255 (m : mat) : tensor :=
  {| t_dtype := float32;
     t_values :=
       map (map (fun '(c0, c1, c2) =>
                   [Fin (Q_of_byte c0 / 255); Fin (Q_of_byte c1 / 255);
                    Fin (Q_of_byte c2 / 255)])) m |}.

Definition is_nan (x : fval) : bool :=
  match x with NaN => true | Fin _ => false end.

(** [tf.reduce_any(tf.math.is_nan(img))] *)
Definition any_nan (t : tensor) : bool :=
  existsb (existsb (existsb is_nan)) (t_values t).

Definition over_values (f : list (list (list fval)) -> list (list (list fval)))
    (t : tensor) : tensor :=
  {| t_dtype := t_dtype t; t_values := f (t_values t) |}.

(** [tf.convert_to_tensor(img)] keeps the values and the dtype. *)
Definition convert_to_tensor (a : tensor) : tensor := a.

(** [tf.reverse] along axis 0 and along axis 1. *)
Definition reverse0 {A} (v : list (list A)) : list (list A) := rev v.
Definition reverse1 {A} (v : list (list A)) : list (list A) := map (@rev A) v.

(** [tf.transpose(v, [1, 0, 2])] of [h] rows of width [w]. *)
Fixpoint transpose_w {A} (w : nat) (v : list (list A)) : list (list A) :=
  match v with
  | [] => repeat [] w
  | row :: rest => zip_with cons row (transpose_w w rest)
  end.

Definition transpose {A} (v : list (list A)) : list (list A) :=
  transpose_w (length (hd [] v)) v.

(** [tf.image.rot90(img, k)]: counter-clockwise, [k] taken modulo 4. *)
Definition rot90_values {A} (k : nat) (v : list (list A)) : list (list A) :=
  match k mod 4 with
  | 1 => transpose (reverse1 v)
  | 2 => reverse0 (reverse1 v)
  | 3 => reverse1 (transpose v)
  | _ => v
  end.

Definition rot90 (t : tensor) (k : nat) : tensor := over_values (rot90_values k) t.

Definition fadd (d : Q) (x : fval) : fval :=
  match x with NaN => NaN | Fin q => Fin (q + d) end.

(** [tf.image.adjust_brightness] on a float image adds [delta]. *)
Definition adjust_brightness (t : tensor) (delta : Q) : tensor :=
  over_values (map3 (fadd delta)) t.

Definition fclip (lo hi : Q) (x : fval) : fval :=
  match x with NaN => NaN | Fin q => Fin (Qmax (Qmin q hi) lo) end.

(** [tf.clip_by_value(t, lo, hi)] is [maximum(minimum(t, hi), lo)]. *)
Definition clip_by_value (t : tensor) (lo hi : Q) : tensor :=
  over_values (map3 (fclip lo hi)) t.

(** The draws one call of the augmentation consumes, in order: the two
    flip coins, the rotation count (uniform on 0..3) and the brightness
    offset (uniform on [-0.2, 0.2)). *)
Record aug_draws : Type := {
  flip_lr : bool;
  flip_ud : bool;
  rot_k : nat;
  delta : Q
}.

Definition random_flip_left_right (coin : bool) (t : tensor) : tensor :=
  if coin then over_values reverse1 t else t.

Definition random_flip_up_down (coin : bool) (t : tensor) : tensor :=
  if coin then over_values reverse0 t else t.

(** [tf.debugging.assert_equal(tf.shape(img), [h, w, c])] *)
Definition assert_shape (t : tensor) (h w c : nat) : Py.io unit :=
  if shape_is h w c (t_values t) then Py.ret tt else Py.raise Py.InvalidArgumentError.

(** [try: body except Exception: handler] *)
Definition try_except {A} (body : Py.io A) (handler : Py.exn -> Py.io A) : Py.io A :=
  match body with
  | (out, Py.Ok a) => (out, Py.Ok a)
  | (out, Py.Raise e) => let '(out', r) := handler e in (out ++ out', r)
  end.

Definition in_unit (x : fval) : Prop :=
  match x with NaN => False | Fin q => (0 <= q /\ q <= 1)%Q end.

End Tensor.

Import Tensor.

(** ** GarbageDataset.preprocess_image *)

Section Loader.

(** The image decoder behind [cv2.imread] ([None] when the content is
    not a decodable image) and [cv2.resize] with its default
    interpolation; [dsize] is (width, height). *)
Variable imdecode : string -> option mat.
Variable resize : mat -> nat * nat -> mat.

Definition imread (fs : gmap string string) (path : string) : option mat :=
  match fs !! path with
  | Some content => imdecode content
  | None => None
  end.

Definition preprocess_image (fs : gmap string string) (self : GarbageDataset)
    (rnd : aug_draws) (img_path : string) : Py.io tensor :=
  img ← match imread fs (Py.path_join (root_dir self) img_path) with
        | None =>
            _ ← Py.print ("警告：无法读取图片 " +:+ img_path);
            mret (zeros IMG_SIZE IMG_SIZE 3)
        | Some img =>
            let img := cvtColor_BGR2RGB img in
            let img := resize img (IMG_SIZE, IMG_SIZE) in
            mret (astype_float32_div255 img)
        end;
  let img := convert_to_tensor img in
  if is_training self then
    if any_nan img then
      _ ← Py.print ("警告：图片 " +:+ img_path +:+ " 包含 NaN 值");
      mret (zeros IMG_SIZE IMG_SIZE 3)
    else
      _ ← assert_shape img IMG_SIZE IMG_SIZE 3;
      try_except
        (let img := random_flip_left_right (flip_lr rnd) img in
         let img := random_flip_up_down (flip_ud rnd) img in
         let k := rot_k rnd in
         let img := rot90 img k in
         let img := adjust_brightness img (delta rnd) in
         let img := clip_by_value img 0 1 in
         mret img)
        (fun e =>
           _ ← Py.print ("数据增强过程中出错 " +:+ img_path +:+ ": " +:+ Py.str_of_exn e);
           mret (zeros IMG_SIZE IMG_SIZE 3))
  else mret img.

End Loader.

(** ** GarbageDataset.create_dataset *)

(** An element of the dataset: the image and its label. *)
Definition item : Type := (tensor * Z)%type.

(** A suspended [generator()] frame: what is left of [indices] in the
    running [for] loop, and how far the two random tapes have been read. *)
Record gen_state : Type := {
  pending : list nat;
  np_pos : nat;
  tf_pos : nat
}.

(** [generator()]: a frame that has not run yet; the first [next]
    enters [while True]. *)
Definition generator : gen_state := {| pending := []; np_pos := 0; tf_pos := 0 |}.

(** What resuming the generator gives within the fuel: the next element
    and the suspended frame, or no element yet.  The body is a
    [while True] loop without [break] or [return], so there is no outcome
    for an exhausted generator. *)
Inductive resumed : Type :=
| Yielded (x : item) (st : gen_state)
| Looping.

(** A [tf.data] dataset fed by a generator: the frame a new iterator
    starts from, and how an iterator gets its next element ([None]: the
    generator is still looping when the fuel runs out). *)
Record dataset (A : Type) : Type := {
  make_iterator : gen_state;
  get_next : nat -> gen_state -> Py.io (option (A * gen_state))
}.
Arguments make_iterator {A} _.
Arguments get_next {A} _ _ _.

(** [n] consecutive elements of an iterator. *)
Fixpoint dataset_take {A} (ds : dataset A) (fuel n : nat) (st : gen_state)
  : Py.io (option (list A * gen_state)) :=
  match n with
  | O => mret (Some ([], st))
  | S n' =>
      r ← get_next ds fuel st;
      match r with
      | Some (x, st') =>
          more ← dataset_take ds fuel n' st';
          mret (match more with
                | Some (xs, st'') => Some (x :: xs, st'')
                | None => None
                end)
      | None => mret None
      end
  end.

(** [dataset.batch(batch_size)] on a dataset that does not end. *)
Definition batch {A} (ds : dataset A) (batch_size : nat) : dataset (list A) :=
  {| make_iterator := make_iterator ds;
     get_next := fun fuel st => dataset_take ds fuel batch_size st |}.

(** [dataset.prefetch(...)] changes when elements are computed, not
    which. *)
Definition prefetch {A} (ds : dataset A) : dataset A := ds.

(** [model.fit(train_data, steps_per_epoch=steps, epochs=n)] on a
    dataset built from a generator: Keras creates one iterator and each
    epoch takes the next [steps] batches from it.  The result lists
    the batches of each epoch. *)
Fixpoint fit_epochs {A} (ds : dataset A) (fuel steps n : nat) (st : gen_state)
  : Py.io (option (list (list A))) :=
  match n with
  | O => mret (Some [])
  | S n' =>
      r ← dataset_take ds fuel steps st;
      match r with
      | Some (bs, st') =>
          more ← fit_epochs ds fuel steps n' st';
          mret (match more with
                | Some es => Some (bs :: es)
                | None => None
                end)
      | None => mret None
      end
  end.

Section Generator.

Variable imdecode : string -> option mat.
Variable resize : mat -> nat * nat -> mat.
Variable fs : gmap string string.
Variable self : GarbageDataset.

(** [np_permutation j n]: the result of the [j]-th call
    [np.random.permutation(n)]; [tf_draws u]: the draws of the [u]-th
    call of [preprocess_image]. *)
Variable np_permutation : nat -> nat -> list nat.
Variable tf_draws : nat -> aug_draws.

(** The body of [for idx in indices]. *)
Definition yield_sample (st : gen_state) (idx : nat) (rest : list nat)
  : Py.io resumed :=
  match data self !! idx with
  | Some (img_path, label) =>
      img ← preprocess_image imdecode resize fs self (tf_draws (tf_pos st)) img_path;
      mret (Yielded (img, label)
              {| pending := rest; np_pos := np_pos st; tf_pos := S (tf_pos st) |})
  | None => Py.raise Py.IndexError
  end.

(** [next(generator)]: run to the next [yield].  Each turn of
    [while True] that draws a permutation costs one unit of fuel. *)
Fixpoint gen_next (fuel : nat) (st : gen_state) : Py.io resumed :=
  match pending st with
  | idx :: rest => yield_sample st idx rest
  | [] =>
      match fuel with
      | O => mret Looping
      | S fuel' =>
          let indices := np_permutation (np_pos st) (length (data self)) in
          gen_next fuel'
            {| pending := indices; np_pos := S (np_pos st); tf_pos := tf_pos st |}
      end
  end.

Definition int32_ok (z : Z) : bool := ((- 2 ^ 31 <=? z) && (z <? 2 ^ 31))%Z.

Definition dtype_is (d e : dtype) : bool :=
  match d, e with
  | uint8, uint8 | int32, int32 | float16, float16 | float32, float32 => true
  | _, _ => false
  end.

(** The [output_signature] given to [tf.data.Dataset.from_generator]:
    a float32 tensor of shape (IMG_SIZE, IMG_SIZE, 3) and an int32
    scalar. *)
Definition matches_signature (x : item) : bool :=
  dtype_is (t_dtype (fst x)) float32 &&
  shape_is IMG_SIZE IMG_SIZE 3 (t_values (fst x)) &&
  int32_ok (snd x).

(** [tf.data.Dataset.from_generator(generator, output_signature=...)]:
    each element is the generator's next one, checked against the
    signature. *)
Definition from_generator : dataset item :=
  {| make_iterator := generator;
     get_next := fun fuel st =>
       r ← gen_next fuel st;
       match r with
       | Yielded x st' =>
           if matches_signature x then mret (Some (x, st'))
           else Py.raise Py.TypeError
       | Looping => mret None
       end |}.

Definition create_dataset : dataset (list item) :=
  let dataset := from_generator in
  let dataset := batch dataset BATCH_SIZE in
  let dataset := prefetch dataset in
  dataset.

(** The generator alone, without the signature check. *)
Fixpoint gen_take (fuel n : nat) (st : gen_state)
  : Py.io (option (list item * gen_state)) :=
  match n with
  | O => mret (Some ([], st))
  | S n' =>
      r ← gen_next fuel st;
      match r with
      | Yielded x st' =>
          more ← gen_take fuel n' st';
          mret (match more with
                | Some (xs, st'') => Some (x :: xs, st'')
                | None => None
                end)
      | Looping => mret None
      end
  end.

End Generator.

(** ** convert_to_tflite *)

Section Exporter.

Context {Model : Type}.

Inductive optimize : Type := OPTIMIZE_DEFAULT.

Record converter : Type := {
  conv_model : Model;
  optimizations : list optimize;
  supported_types : list dtype
}.

(** [converter.convert()]: the serialised flatbuffer. *)
Variable convert : converter -> string.

Definition from_keras_model (model : Model) : converter :=
  {| conv_model := model; optimizations := []; supported_types := [] |}.

(** Returns the file system after the write, and what was printed. *)
Definition convert_to_tflite {Dataset : Type} (fs : gmap string string)
    (model : Model) (dataset : Dataset) (filename : string)
  : gmap string string * list string :=
  let converter := from_keras_model model in
  let converter := {| conv_model := conv_model converter;
                      optimizations := [OPTIMIZE_DEFAULT];
                      supported_types := supported_types converter |} in
  let converter := {| conv_model := conv_model converter;
                      optimizations := optimizations converter;
                      supported_types := [float16] |} in
  let tflite_model := convert converter in
  (<[filename := tflite_model]> fs, ["TFLite模型已保存为: " +:+ filename]).

End Exporter.

(** ** main: what is handed to [model.compile] and [model.fit] *)

Inductive callback : Type :=
| EarlyStopping (patience : nat) (restore_best_weights : bool)
| ReduceLROnPlateau (factor : Q) (patience : nat).

Record fit_args : Type := {
  learning_rate : Q;
  epochs : nat;
  steps_per_epoch : nat;
  validation_steps : nat;
  callbacks : list callback
}.

Definition main_fit_args (train_dataset val_dataset : GarbageDataset) : fit_args :=
  let steps_per_epoch := num_samples train_dataset / BATCH_SIZE in
  let validation_steps := num_samples val_dataset / BATCH_SIZE in
  {| learning_rate := 1 # 1000;
     epochs := 20;
     steps_per_epoch := steps_per_epoch;
     validation_steps := validation_steps;
     callbacks := [EarlyStopping 3 true; ReduceLROnPlateau (2 # 10) 2] |}.


(** ** The Keras callback that adjusts the learning rate

    [tf.keras.callbacks.ReduceLROnPlateau.on_epoch_end], with the
    arguments the script does not pass at their defaults
    (monitor 'val_loss', mode 'min', min_delta 1e-4, cooldown 0,
    min_lr 0). *)

Module Keras.

Record plateau_state : Type := {
  lr : Q;
  best : option Q;         (* [None] is the initial +infinity *)
  wait : nat;
  cooldown_counter : nat
}.

Definition min_delta : Q := 1 # 10000.
Definition cooldown : nat := 0.
Definition min_lr : Q := 0.

Definition Qltb (a b : Q) : bool := negb (Qle_bool b a).

(** [monitor_op(current, best)], i.e. [current < best - min_delta]. *)
Definition monitor_op (current : Q) (best : option Q) : bool :=
  match best with
  | None => true
  | Some b => Qltb current (b - min_delta)
  end.

Definition in_cooldown (st : plateau_state) : bool :=
  (0 <? cooldown_counter st)%nat.

Definition on_epoch_end (factor : Q) (patience : nat) (st : plateau_state)
    (current : Q) : plateau_state :=
  let st :=
    if in_cooldown st
    then {| lr := lr st; best := best st; wait := 0;
            cooldown_counter := cooldown_counter st - 1 |}
    else st in
  if monitor_op current (best st) then
    {| lr := lr st; best := Some current; wait := 0;
       cooldown_counter := cooldown_counter st |}
  else if negb (in_cooldown st) then
    let wait' := S (wait st) in
    if (patience <=? wait')%nat && Qltb min_lr (lr st) then
      let new_lr := Qmax (lr st * factor) min_lr in
      {| lr := new_lr; best := best st; wait := 0; cooldown_counter := cooldown |}
    else
      {| lr := lr st; best := best st; wait := wait';
         cooldown_counter := cooldown_counter st |}
  else st.

(** State of the callback when training begins. *)
Definition on_train_begin (learning_rate : Q) : plateau_state :=
  {| lr := learning_rate; best := None; wait := 0; cooldown_counter := 0 |}.

End Keras.

(** What one callback of the list does to the learning-rate state at the
    end of an epoch whose validation loss is [val_loss]; [EarlyStopping]
    leaves the learning rate alone. *)
Definition callback_on_epoch_end (st : Keras.plateau_state) (val_loss : Q)
    (cb : callback) : Keras.plateau_state :=
  match cb with
  | EarlyStopping _ _ => st
  | ReduceLROnPlateau factor patience => Keras.on_epoch_end factor patience st val_loss
  end.

Definition callbacks_on_epoch_end (cbs : list callback) (st : Keras.plateau_state)
    (val_loss : Q) : Keras.plateau_state :=
  fold_left (fun st cb => callback_on_epoch_end st val_loss cb) cbs st.

(** The learning rate after training sees the validation losses [losses],
    one per epoch. *)
Definition lr_after (args : fit_args) (losses : list Q) : Q :=
  Keras.lr (fold_left (callbacks_on_epoch_end (callbacks args)) losses
              (Keras.on_train_begin (learning_rate args))).

(** ** Vocabulary of the statements, and sample inputs *)

(** A manifest line is well formed when it splits into exactly two
    whitespace-separated tokens and [int] accepts the second. *)
Definition well_formed_line (line : string) : Prop :=
  exists path label n,
    Py.split (Py.strip line) = [path; label] /\ Py.int label = Py.Ok n.

(** The manifest format's reading of a path token: one leading "./" is
    removed when present, and nothing else. *)
Definition without_dot_slash_prefix (token : string) : string :=
  match token with
  | String "." (String "/" rest) => rest
  | _ => token
  end.

Definition nl : string := String Py.LF EmptyString.

Definition manifest_ab : string := "a.jpg 3" +:+ nl +:+ "b.jpg 0" +:+ nl.
Definition manifest_short_line : string := "a.jpg 3" +:+ nl +:+ "b.jpg" +:+ nl.
Definition manifest_label_99 : string := "a.jpg 99" +:+ nl.
Definition manifest_parent_dir : string := "../a.jpg 1" +:+ nl.

Definition train_txt (manifest : string) : gmap string string :=
  {[ "garbage/train.txt" := manifest ]}.

(** Shape (h, w, c) of a nested list: [h] rows of [w] pixels of [c]
    channels. *)
Definition has_shape {A} (h w c : nat) (v : list (list (list A))) : Prop :=
  length v = h /\
  Forall (fun row => length row = w /\ Forall (fun px => length px = c) row) v.

(** Clamping to [0, 1] as [clip_by_value] does it. *)
Definition clamp01 (q : Q) : Q := Qmax (Qmin q 1) 0.

(** A stand-in decoder and a nearest-neighbour resize, to run the loader
    on sample inputs: a file of at least three bytes decodes to a single
    pixel. *)
Definition one_pixel_decode (content : string) : option mat :=
  match content with
  | String c0 (String c1 (String c2 _)) =>
      Some [[(byte_of_ascii c0, byte_of_ascii c1, byte_of_ascii c2)]]
  | _ => None
  end.

Definition nearest_resize (m : mat) (dsize : nat * nat) : mat :=
  let '(w, h) := dsize in
  map (fun i =>
         let row := nth (i * length m / h) m [] in
         map (fun j => nth (j * length row / w) row (x00, x00, x00)) (seq 0 w))
      (seq 0 h).

Definition training_set (samples : list (string * Z)) : GarbageDataset :=
  {| root_dir := "garbage"; is_training := true;
     data := samples; num_samples := length samples |}.

Definition validation_set (samples : list (string * Z)) : GarbageDataset :=
  {| root_dir := "garbage"; is_training := false;
     data := samples; num_samples := length samples |}.

Definition one_image : gmap string string := {[ "garbage/a.jpg" := "abc" ]}.

Definition brighter : aug_draws :=
  {| flip_lr := false; flip_ud := false; rot_k := 0; delta := 1 # 10 |}.

Definition turned : aug_draws :=
  {| flip_lr := true; flip_ud := false; rot_k := 3; delta := - (1 # 20) |}.

(** ** The element stream, by index

    What the generator is expected to produce, as pure functions of the
    suspended frame: which index comes next, and the element yielded for
    an index at a given position of the augmentation tape. *)

Section Stream.

Variable imdecode : string -> option mat.
Variable resize : mat -> nat * nat -> mat.
Variable fs : gmap string string.
Variable self : GarbageDataset.
Variable np_permutation : nat -> nat -> list nat.
Variable tf_draws : nat -> aug_draws.

Definition expected_item (u idx : nat) : item :=
  match data self !! idx with
  | Some (img_path, label) =>
      (match Py.outcome (preprocess_image imdecode resize fs self (tf_draws u) img_path) with
       | Py.Ok img => img
       | Py.Raise _ => zeros IMG_SIZE IMG_SIZE 3
       end, label)
  | None => (zeros IMG_SIZE IMG_SIZE 3, 0%Z)
  end.

Fixpoint expected_items (u : nat) (idxs : list nat) : list item :=
  match idxs with
  | [] => []
  | idx :: rest => expected_item u idx :: expected_items (S u) rest
  end.

(** The next index and frame: from the running pass, or from a fresh
    permutation when the pass is over. *)
Definition advance (st : gen_state) : option (nat * gen_state) :=
  match pending st with
  | idx :: rest =>
      Some (idx, {| pending := rest; np_pos := np_pos st; tf_pos := S (tf_pos st) |})
  | [] =>
      match np_permutation (np_pos st) (length (data self)) with
      | idx :: rest =>
          Some (idx, {| pending := rest; np_pos := S (np_pos st);
                        tf_pos := S (tf_pos st) |})
      | [] => None
      end
  end.

Fixpoint advance_n (n : nat) (st : gen_state) : list nat * gen_state :=
  match n with
  | O => ([], st)
  | S n' =>
      match advance st with
      | Some (idx, st') =>
          let '(idxs, st'') := advance_n n' st' in (idx :: idxs, st'')
      | None => ([], st)
      end
  end.

(** [n] batches of indices, each with the tape position it starts at. *)
Fixpoint advance_batches (n : nat) (st : gen_state)
  : list (nat * list nat) * gen_state :=
  match n with
  | O => ([], st)
  | S n' =>
      let '(idxs, st') := advance_n BATCH_SIZE st in
      let '(bs, st'') := advance_batches n' st' in
      ((tf_pos st, idxs) :: bs, st'')
  end.

Definition expected_batches (bs : list (nat * list nat)) : list (list item) :=
  map (fun '(u, idxs) => expected_items u idxs) bs.

(** [n] epochs of [steps] batches each. *)
Fixpoint advance_epochs (steps n : nat) (st : gen_state)
  : list (list (nat * list nat)) :=
  match n with
  | O => []
  | S n' =>
      let '(bs, st') := advance_batches steps st in
      bs :: advance_epochs steps n' st'
  end.

(** Every index waiting in the frame is within the index. *)
Definition frame_ok (st : gen_state) : Prop :=
  Forall (fun idx => idx < length (data self)) (pending st).

(** The labels met along a list of indices. *)
Definition labels_along (idxs : list nat) : list Z :=
  omap (fun idx => snd <$> data self !! idx) idxs.

(** The batches are a run of one pass: their labels, in order, are a
    segment of the labels along one of the permutations drawn. *)
Definition within_one_pass (bs : list (list item)) : Prop :=
  exists j before after,
    labels_along (np_permutation j (length (data self)))
    = before ++ map snd (concat bs) ++ after.

End Stream.

(** A sample world for the generator: forty samples labelled by their
    position, none of whose files exist, and a permutation tape that
    alternates between the identity and its reverse. *)
Definition forty_samples : list (string * Z) :=
  map (fun i => (Py.str_of_nat i +:+ ".jpg", Z.of_nat i)) (seq 0 40).

Definition back_and_forth (j n : nat) : list nat :=
  if Nat.even j then seq 0 n else rev (seq 0 n).

Definition same_draws (u : nat) : aug_draws := brighter.

(** The frame between two passes over an index of [n] samples, when [p]
    passes are complete. *)
Definition pass_boundary (n p : nat) : gen_state :=
  {| pending := []; np_pos := p; tf_pos := p * n |}.

(** The indices of the first [p] passes, one permutation after another. *)
Definition passes (np_permutation : nat -> nat -> list nat) (n p : nat) : list nat :=
  concat (map (fun j => np_permutation j n) (seq 0 p)).

(** ** Vocabulary of the further properties *)

Fixpoint forall_chars (p : ascii -> bool) (s : string) : bool :=
  match s with
  | EmptyString => true
  | String c rest => p c && forall_chars p rest
  end.

Definition not_space (c : ascii) : bool := negb (Py.isspace c).

Definition dot_or_slash (c : ascii) : bool := Py.mem_char c "./".

Definition starts_with (p : ascii -> bool) (s : string) : bool :=
  match s with
  | EmptyString => false
  | String c _ => p c
  end.




Definition manifest_blank_end : string := "a.jpg 3" +:+ nl +:+ nl.

Definition manifest_odd_paths : string :=
  "/abs/a.jpg 1" +:+ nl +:+ "./ 2" +:+ nl +:+ "../b.jpg 3" +:+ nl.






Fixpoint Qpow (q : Q) (k : nat) : Q :=
  match k with
  | O => 1
  | S k' => q * Qpow q k'
  end.

(** ** configure_gpu

    The three [tf.config] calls are the library's: each takes the runtime
    context and gives it back, with a result or the exception it raised.
    [RuntimeError] is the one exception [configure_gpu] handles; it is
    kept apart from the exceptions of [Py.exn], which pass through. *)

Module Config.

Inductive error : Type :=
| RuntimeError (msg : string)
| OtherError (e : Py.exn).

Record run (Ctx : Type) : Type := {
  context : Ctx;
  stdout : list string;
  escaped : option error
}.

Arguments context {Ctx} _.
Arguments stdout {Ctx} _.
Arguments escaped {Ctx} _.

End Config.

Section ConfigureGpu.

Context {Ctx PhysicalDevice LogicalDevice : Type}.

Variable list_physical_devices : Ctx -> list PhysicalDevice.
Variable set_memory_growth : Ctx -> PhysicalDevice -> Ctx * option Config.error.
Variable list_logical_devices : Ctx -> Ctx * (list LogicalDevice + Config.error).

(** [for gpu in gpus: tf.config.experimental.set_memory_growth(gpu, True)]:
    the loop stops at the first call that raises. *)
Fixpoint enable_growth (ctx : Ctx) (gpus : list PhysicalDevice)
  : Ctx * option Config.error :=
  match gpus with
  | [] => (ctx, None)
  | gpu :: rest =>
      match set_memory_growth ctx gpu with
      | (ctx', None) => enable_growth ctx' rest
      | (ctx', Some e) => (ctx', Some e)
      end
  end.

(** [except RuntimeError as e: print(...)]. *)
Definition except_RuntimeError (ctx : Ctx) (e : Config.error) : Config.run Ctx :=
  match e with
  | Config.RuntimeError msg =>
      {| Config.context := ctx;
         Config.stdout := ["GPU配置错误: " +:+ msg];
         Config.escaped := None |}
  | Config.OtherError _ =>
      {| Config.context := ctx; Config.stdout := []; Config.escaped := Some e |}
  end.

Definition configure_gpu (ctx : Ctx) : Config.run Ctx :=
  let gpus := list_physical_devices ctx in
  match gpus with
  | [] =>
      {| Config.context := ctx;
         Config.stdout := ["未找到可用的GPU，将使用CPU训练"];
         Config.escaped := None |}
  | _ :: _ =>
      match enable_growth ctx gpus with
      | (ctx, Some e) => except_RuntimeError ctx e
      | (ctx, None) =>
          match list_logical_devices ctx with
          | (ctx, inr e) => except_RuntimeError ctx e
          | (ctx, inl logical_gpus) =>
              {| Config.context := ctx;
                 Config.stdout :=
                   ["找到 " +:+ Py.str_of_nat (length gpus) +:+ " 个物理GPU, "
                    +:+ Py.str_of_nat (length logical_gpus) +:+ " 个逻辑GPU"];
                 Config.escaped := None |}
          end
      end
  end.

End ConfigureGpu.

(** ** The end of main: the two files it writes *)

Section Artefacts.

Context {Model : Type}.

(** [model.save(path)]: the serialised HDF5 file. *)
Variable save : Model -> string.
Variable convert : @converter Model -> string.


End Artefacts.

(** * Properties *)

(** ** The builtins on sample inputs *)

Example split_runs_of_spaces :
  Py.split (Py.strip ("  a.jpg" +:+ String "009" " 3 " +:+ nl)) = ["a.jpg"; "3"].
Proof. reflexivity. Qed.

Example split_blank_line : Py.split (Py.strip nl) = [].
Proof. reflexivity. Qed.

Example int_signs_and_underscores :
  Py.int "42" = Py.Ok 42%Z /\ Py.int "-7" = Py.Ok (-7)%Z /\
  Py.int "+1_000" = Py.Ok 1000%Z /\ Py.int "007" = Py.Ok 7%Z.
Proof. repeat split; reflexivity. Qed.

Example int_rejects :
  Py.int "" = Py.Raise Py.ValueError /\ Py.int "3.0" = Py.Raise Py.ValueError /\
  Py.int "1__0" = Py.Raise Py.ValueError /\ Py.int "_1" = Py.Raise Py.ValueError /\
  Py.int "1_" = Py.Raise Py.ValueError /\ Py.int "-" = Py.Raise Py.ValueError /\
  Py.int "cat" = Py.Raise Py.ValueError.
Proof. repeat split; reflexivity. Qed.

Example lstrip_is_by_character :
  Py.lstrip "./" "./a.jpg" = "a.jpg" /\ Py.lstrip "./" "a.jpg" = "a.jpg" /\
  Py.lstrip "./" "./.a/b.jpg" = "a/b.jpg" /\ Py.lstrip "./" "/abs/a.jpg" = "abs/a.jpg".
Proof. repeat split; reflexivity. Qed.

Example path_join_cases :
  Py.path_join "garbage" "train.txt" = "garbage/train.txt" /\
  Py.path_join "garbage/" "a.jpg" = "garbage/a.jpg" /\
  Py.path_join "garbage" "/abs/a.jpg" = "/abs/a.jpg" /\
  Py.path_join "" "a.jpg" = "a.jpg".
Proof. repeat split; reflexivity. Qed.

Example file_lines_terminators :
  Py.file_lines ("a" +:+ String Py.CR nl +:+ "b" +:+ String Py.CR "c")
  = ["a" +:+ nl; "b" +:+ nl; "c"]
  /\ Py.file_lines "" = []
  /\ Py.file_lines (nl +:+ "a") = [nl; "a"].
Proof. repeat split; reflexivity. Qed.

Example rot90_quarter_turns :
  let v := [[1; 2; 3]; [4; 5; 6]] in
  rot90_values 0 v = v /\
  rot90_values 1 v = [[3; 6]; [2; 5]; [1; 4]] /\
  rot90_values 2 v = [[6; 5; 4]; [3; 2; 1]] /\
  rot90_values 3 v = [[4; 1]; [5; 2]; [6; 3]] /\
  rot90_values 4 v = v.
Proof. repeat split; reflexivity. Qed.

(** ** The sample index *)

Lemma int_raises_ValueError label e : Py.int label = Py.Raise e -> e = Py.ValueError.
Proof.
  unfold Py.int.
  match goal with |- context [let '(_, _) := ?x in _] => destruct x as [neg body] end.
  destruct (Py.int_digits 0 false body); congruence.
Qed.

Lemma sample_of_line_raises line e :
  sample_of_line line = Py.Raise e -> e = Py.ValueError.
Proof.
  unfold sample_of_line.
  destruct (Py.split (Py.strip line)) as [|path [|label [|extra tokens]]];
    try congruence.
  destruct (Py.int label) eqn:Hint; [congruence|].
  intros [= <-]. eauto using int_raises_ValueError.
Qed.

Lemma well_formed_line_iff line :
  well_formed_line line <-> exists s, sample_of_line line = Py.Ok s.
Proof.
  unfold well_formed_line, sample_of_line. split.
  - intros (path & label & n & -> & ->). eauto.
  - intros [s Hs].
    destruct (Py.split (Py.strip line)) as [|path [|label [|extra tokens]]];
      try discriminate.
    destruct (Py.int label) as [n|] eqn:Hint; [|discriminate]. eauto.
Qed.

Lemma ill_formed_line_raises line :
  ~ well_formed_line line -> sample_of_line line = Py.Raise Py.ValueError.
Proof.
  intros Hbad. destruct (sample_of_line line) as [s|e] eqn:Hs.
  - exfalso. apply Hbad, well_formed_line_iff. eauto.
  - f_equal. eauto using sample_of_line_raises.
Qed.

Lemma well_formed_line_dec line : {well_formed_line line} + {~ well_formed_line line}.
Proof.
  destruct (sample_of_line line) as [s|e] eqn:Hs.
  - left. apply well_formed_line_iff. eauto.
  - right. intros [s Hs']%well_formed_line_iff. congruence.
Qed.

(** The loop only ever appends to what it has. *)
Lemma read_samples_acc lines acc :
  read_samples lines acc =
  match read_samples lines [] with
  | Py.Ok samples => Py.Ok (acc ++ samples)
  | Py.Raise e => Py.Raise e
  end.
Proof.
  revert acc. induction lines as [|line rest IH]; intros acc; cbn.
  - by rewrite app_nil_r.
  - destruct (sample_of_line line) as [s|e]; [|done].
    rewrite (IH (acc ++ [s])), (IH [s]).
    destruct (read_samples rest []); [|done].
    by rewrite <- app_assoc.
Qed.

Lemma read_samples_well_formed lines :
  Forall well_formed_line lines ->
  exists samples,
    read_samples lines [] = Py.Ok samples /\
    Forall2 (fun line s => sample_of_line line = Py.Ok s) lines samples.
Proof.
  induction 1 as [|line rest Hline _ (samples & Hrest & Hall)]; cbn.
  - exists []. split; [done|constructor].
  - apply well_formed_line_iff in Hline as [s Hs]. rewrite Hs.
    rewrite read_samples_acc, Hrest. exists (s :: samples). split; [done|].
    by constructor.
Qed.

Lemma read_samples_ill_formed lines acc :
  Exists (fun line => ~ well_formed_line line) lines ->
  read_samples lines acc = Py.Raise Py.ValueError.
Proof.
  intros Hex. revert acc.
  induction Hex as [line rest Hbad|line rest _ IH]; intros acc; cbn.
  - by rewrite (ill_formed_line_raises _ Hbad).
  - destruct (sample_of_line line) as [s|e] eqn:Hs; [apply IH|].
    f_equal. eauto using sample_of_line_raises.
Qed.

(** [__init__] once the manifest has been opened. *)
Lemma init_opened fs root txt training content :
  fs !! Py.path_join root txt = Some content ->
  GarbageDataset_init fs root txt training =
  match read_samples (Py.file_lines content) [] with
  | Py.Ok samples =>
      (["加载了 " +:+ Py.str_of_nat (length samples) +:+ " 个样本"],
       Py.Ok {| root_dir := root; is_training := training;
                data := samples; num_samples := length samples |})
  | Py.Raise e => ([], Py.Raise e)
  end.
Proof.
  intros Hfs. unfold GarbageDataset_init, Py.open_r. rewrite Hfs.
  cbn. by destruct (read_samples (Py.file_lines content) []).
Qed.

(** What [lstrip('./')] removes: the longest prefix made of dots and
    slashes, whatever its length. *)
Lemma lstrip_dots_and_slashes token :
  exists prefix,
    token = prefix +:+ Py.lstrip "./" token /\
    Forall (fun c => c = "."%char \/ c = "/"%char) (list_ascii_of_string prefix) /\
    match Py.lstrip "./" token with
    | String c _ => c <> "."%char /\ c <> "/"%char
    | EmptyString => True
    end.
Proof.
  unfold Py.lstrip.
  induction token as [|c rest (prefix & Heq & Hprefix & Hrest)].
  - exists "". by repeat split.
  - cbn [Py.lstrip_by]. destruct (Py.mem_char c "./") eqn:Hmem.
    + exists (String c prefix).
      split; [exact (f_equal (String c) Heq)|]. split; [|done].
      constructor; [|done]. cbn in Hmem.
      destruct (Ascii.eqb_spec c "."); [by left|].
      destruct (Ascii.eqb_spec c "/"); [by right|done].
    + exists "". split; [done|]. split; [constructor|].
      split; intros ->; discriminate Hmem.
Qed.

Lemma init_num_samples fs root txt training ds :
  Py.outcome (GarbageDataset_init fs root txt training) = Py.Ok ds ->
  num_samples ds = length (data ds).
Proof.
  unfold GarbageDataset_init, Py.open_r.
  destruct (fs !! Py.path_join root txt) as [content|]; [|discriminate].
  cbn. destruct (read_samples (Py.file_lines content) []) as [samples|e];
    [|discriminate].
  cbn. by intros [= <-].
Qed.


(** C2, evaluated on the code.  The manifest line "../a.jpg 1" has a path
    token that does not start with "./", so the manifest format keeps it
    unchanged; [lstrip('./')] strips every leading '.' and '/' and the
    stored path is "a.jpg".  The same happens to "././a.jpg" and to a
    name that starts with a dot. *)
Theorem lstrip_strips_all_leading_dots_and_slashes :
  Py.outcome (GarbageDataset_init (train_txt manifest_parent_dir) "garbage" "train.txt" true)
  = Py.Ok {| root_dir := "garbage"; is_training := true;
             data := [("a.jpg", 1%Z)]; num_samples := 1 |}
  /\ without_dot_slash_prefix "../a.jpg" = "../a.jpg"
  /\ sample_of_line "././a.jpg 1" = Py.Ok ("a.jpg", 1%Z)
  /\ without_dot_slash_prefix "././a.jpg" = "./a.jpg"
  /\ sample_of_line ".cache/a.jpg 1" = Py.Ok ("cache/a.jpg", 1%Z)
  /\ without_dot_slash_prefix ".cache/a.jpg" = ".cache/a.jpg".
Proof. repeat split; vm_compute; reflexivity. Qed.

(** C4 as stated fails: the one-line manifest "a.jpg 99" is well formed
    and its label 99 is stored, outside [0, NUM_CLASSES). *)
Lemma label_outside_class_range :
  ~ (forall fs root txt training content ds,
        fs !! Py.path_join root txt = Some content ->
        Forall well_formed_line (Py.file_lines content) ->
        Py.outcome (GarbageDataset_init fs root txt training) = Py.Ok ds ->
        Forall (fun s => (0 <= snd s < Z.of_nat NUM_CLASSES)%Z) (data ds)).
Proof.
  intros Hclaim.
  specialize (Hclaim (train_txt manifest_label_99) "garbage" "train.txt" true
                manifest_label_99
                {| root_dir := "garbage"; is_training := true;
                   data := [("a.jpg", 99%Z)]; num_samples := 1 |}).
  assert (Hall : Forall (fun s : string * Z => (0 <= snd s < Z.of_nat NUM_CLASSES)%Z)
                   [("a.jpg", 99%Z)]).
  { apply Hclaim.
    - reflexivity.
    - repeat constructor. exists "a.jpg", "99", 99%Z. split; reflexivity.
    - reflexivity. }
  inversion Hall as [|? ? [_ Hlt] _]. unfold NUM_CLASSES in Hlt. cbn in Hlt. lia.
Qed.

(** C4, amended: for a manifest whose lines are all well formed, the
    label stored for a line is the integer that [int] reads from the
    line's second token, whatever its value; no range is enforced. *)
Theorem stored_label_is_int_of_token fs root txt training content :
  fs !! Py.path_join root txt = Some content ->
  Forall well_formed_line (Py.file_lines content) ->
  exists ds,
    Py.outcome (GarbageDataset_init fs root txt training) = Py.Ok ds /\
    Forall2 (fun line s =>
               exists path label,
                 Py.split (Py.strip line) = [path; label] /\
                 Py.int label = Py.Ok (snd s))
            (Py.file_lines content) (data ds).
Proof.
  intros Hfs Hwf. rewrite (init_opened _ _ _ _ _ Hfs).
  destruct (read_samples_well_formed _ Hwf) as (samples & -> & Hall).
  eexists. split; [reflexivity|]. cbn.
  eapply Forall2_impl; [exact Hall|].
  intros line s Hs. unfold sample_of_line in Hs.
  destruct (Py.split (Py.strip line)) as [|path [|label [|extra tokens]]];
    try discriminate.
  destruct (Py.int label) as [n|] eqn:Hint; [|discriminate].
  injection Hs as <-. eauto.
Qed.

Lemma stored_label_is_int_of_token_witness :
  exists ds,
    Py.outcome (GarbageDataset_init (train_txt manifest_label_99) "garbage" "train.txt" false)
    = Py.Ok ds /\
    Forall2 (fun line s =>
               exists path label,
                 Py.split (Py.strip line) = [path; label] /\
                 Py.int label = Py.Ok (snd s))
            (Py.file_lines manifest_label_99) (data ds).
Proof.
  apply (stored_label_is_int_of_token (train_txt manifest_label_99)
           "garbage" "train.txt" false manifest_label_99).
  - reflexivity.
  - repeat constructor. exists "a.jpg", "99", 99%Z. split; reflexivity.
Defined.

(** C5: once the manifest is opened, building the index raises if and only
    if some line is not well formed; the failure is a [ValueError] raised
    before anything is printed, and no dataset is returned. *)
Theorem init_raises_iff_ill_formed_line fs root txt training content :
  fs !! Py.path_join root txt = Some content ->
  ((exists e, Py.outcome (GarbageDataset_init fs root txt training) = Py.Raise e) <->
   Exists (fun line => ~ well_formed_line line) (Py.file_lines content))
  /\ (forall e, Py.outcome (GarbageDataset_init fs root txt training) = Py.Raise e ->
                GarbageDataset_init fs root txt training = ([], Py.Raise Py.ValueError)).
Proof.
  intros Hfs. rewrite (init_opened _ _ _ _ _ Hfs).
  assert (Hdec : forall line, {~ well_formed_line line} + {~ ~ well_formed_line line}).
  { intros line. destruct (well_formed_line_dec line); [right|left]; tauto. }
  destruct (List.Exists_dec (fun line => ~ well_formed_line line)
              (Py.file_lines content) Hdec) as [Hbad|Hgood].
  - rewrite (read_samples_ill_formed _ [] Hbad). cbn. split; [|done].
    split; [intros _; exact Hbad|intros _; by exists Py.ValueError].
  - assert (Hwf : Forall well_formed_line (Py.file_lines content)).
    { apply Forall_forall. intros line Hin.
      destruct (well_formed_line_dec line) as [|Hno]; [done|].
      exfalso. apply Hgood, Exists_exists. eauto. }
    destruct (read_samples_well_formed _ Hwf) as (samples & -> & _). cbn.
    split; [|intros; discriminate].
    split; [intros [e He]; discriminate|tauto].
Qed.

Lemma init_raises_iff_ill_formed_line_witness :
  GarbageDataset_init (train_txt manifest_short_line) "garbage" "train.txt" true
  = ([], Py.Raise Py.ValueError)
  /\ Exists (fun line => ~ well_formed_line line) (Py.file_lines manifest_short_line).
Proof.
  assert (Hfs : train_txt manifest_short_line !! Py.path_join "garbage" "train.txt"
                = Some manifest_short_line) by reflexivity.
  destruct (init_raises_iff_ill_formed_line (train_txt manifest_short_line)
              "garbage" "train.txt" true manifest_short_line Hfs) as [Hiff Hfatal].
  split.
  - apply (Hfatal Py.ValueError). reflexivity.
  - apply Hiff. exists Py.ValueError. reflexivity.
Defined.

(** C6: for a manifest whose lines are all well formed, the index holds
    one sample per line, in the order of the lines and with repeated
    lines kept, and [num_samples] is the number of lines; the manifest
    "a.jpg 3\nb.jpg 0\n" gives [("a.jpg", 3); ("b.jpg", 0)] and 2. *)
Theorem index_follows_manifest_lines fs root txt training content :
  fs !! Py.path_join root txt = Some content ->
  Forall well_formed_line (Py.file_lines content) ->
  (exists ds,
     Py.outcome (GarbageDataset_init fs root txt training) = Py.Ok ds /\
     num_samples ds = length (Py.file_lines content) /\
     length (data ds) = length (Py.file_lines content) /\
     Forall2 (fun line s => sample_of_line line = Py.Ok s)
             (Py.file_lines content) (data ds))
  /\ Py.outcome (GarbageDataset_init (train_txt manifest_ab) "garbage" "train.txt" training)
     = Py.Ok {| root_dir := "garbage"; is_training := training;
                data := [("a.jpg", 3%Z); ("b.jpg", 0%Z)]; num_samples := 2 |}.
Proof.
  intros Hfs Hwf. split; [|by destruct training].
  rewrite (init_opened _ _ _ _ _ Hfs).
  destruct (read_samples_well_formed _ Hwf) as (samples & -> & Hall).
  eexists. split; [reflexivity|]. cbn.
  pose proof (Forall2_length _ _ _ Hall) as Hlen. by rewrite Hlen.
Qed.

Lemma index_follows_manifest_lines_witness :
  exists ds,
    Py.outcome (GarbageDataset_init (train_txt manifest_ab) "garbage" "train.txt" true)
    = Py.Ok ds /\
    num_samples ds = 2 /\ length (data ds) = 2 /\
    Forall2 (fun line s => sample_of_line line = Py.Ok s)
            (Py.file_lines manifest_ab) (data ds).
Proof.
  apply (index_follows_manifest_lines (train_txt manifest_ab)
           "garbage" "train.txt" true manifest_ab).
  - reflexivity.
  - repeat constructor.
    + exists "a.jpg", "3", 3%Z. split; reflexivity.
    + exists "b.jpg", "0", 0%Z. split; reflexivity.
Defined.

(** ** Arrays *)

Lemma Forall_repeat {A} (P : A -> Prop) x n : P x -> Forall P (repeat x n).
Proof. intros Hx. induction n; cbn; by constructor. Qed.

Lemma existsb_false {A} (f : A -> bool) l :
  existsb f l = false <-> Forall (fun x => f x = false) l.
Proof.
  induction l as [|x l IH]; cbn.
  - split; [constructor|done].
  - rewrite orb_false_iff, IH. split.
    + intros [??]. by constructor.
    + by inversion 1.
Qed.

Lemma forallb_true {A} (f : A -> bool) l :
  forallb f l = true <-> Forall (fun x => f x = true) l.
Proof.
  induction l as [|x l IH]; cbn.
  - split; [constructor|done].
  - rewrite andb_true_iff, IH. split.
    + intros [??]. by constructor.
    + by inversion 1.
Qed.

Lemma Forall_rev' {A} (P : A -> Prop) l : Forall P l -> Forall P (rev l).
Proof.
  intros H. apply List.Forall_forall. intros x Hx%in_rev.
  revert x Hx. by apply List.Forall_forall.
Qed.

Lemma zip_with_cons_repeat {A} (x : A) (r : list A) n :
  zip_with cons (repeat x n) (repeat r n) = repeat (x :: r) n.
Proof. induction n; cbn; congruence. Qed.

(** Transposing [h] rows of width [w]. *)
Lemma transpose_w_length {A} w (v : list (list A)) :
  Forall (fun row => length row = w) v -> length (transpose_w w v) = w.
Proof.
  induction 1 as [|row rest Hrow _ IH]; cbn.
  - apply repeat_length.
  - rewrite length_zip_with. lia.
Qed.

Lemma zip_with_cons_Forall {A} (P : list A -> Prop)
    (row : list A) (cols : list (list A)) :
  (forall x col, In x row -> In col cols -> P (x :: col)) ->
  Forall P (zip_with cons row cols).
Proof.
  revert cols. induction row as [|x row IH]; intros [|col cols] HP; cbn;
    try constructor.
  - apply HP; by left.
  - apply IH. intros y c Hy Hc. apply HP; by right.
Qed.

Lemma transpose_w_rows {A} w (v : list (list A)) :
  Forall (fun col => length col = length v) (transpose_w w v).
Proof.
  induction v as [|row rest IH]; cbn.
  - by apply Forall_repeat.
  - apply zip_with_cons_Forall.
    intros x col _ Hcol. cbn. f_equal.
    revert col Hcol. by apply List.Forall_forall.
Qed.

Lemma transpose_w_Forall {A} (P : A -> Prop) w (v : list (list A)) :
  Forall (Forall P) v -> Forall (Forall P) (transpose_w w v).
Proof.
  induction 1 as [|row rest Hrow _ IH]; cbn.
  - apply Forall_repeat. constructor.
  - apply zip_with_cons_Forall.
    intros x col Hx Hcol. constructor.
    + revert x Hx. by apply List.Forall_forall.
    + revert col Hcol. by apply List.Forall_forall.
Qed.

Lemma transpose_w_repeat {A} (x : A) w h :
  transpose_w w (repeat (repeat x w) h) = repeat (repeat x h) w.
Proof.
  induction h as [|h IH]; cbn; [done|].
  by rewrite IH, zip_with_cons_repeat.
Qed.

Lemma has_shape_rows {A} h w c (v : list (list (list A))) :
  has_shape h w c v ->
  length v = h /\ Forall (fun row => length row = w) v /\
  Forall (Forall (fun px => length px = c)) v.
Proof.
  intros [Hlen Hrows]. split; [done|].
  split; (eapply Forall_impl; [exact Hrows|]); by intros row [??].
Qed.

Lemma has_shape_of_rows {A} h w c (v : list (list (list A))) :
  length v = h -> Forall (fun row => length row = w) v ->
  Forall (Forall (fun px => length px = c)) v -> has_shape h w c v.
Proof.
  intros Hlen Hw Hc. split; [done|].
  apply List.Forall_forall. intros row Hin. split.
  - revert row Hin. by apply List.Forall_forall.
  - revert row Hin. by apply List.Forall_forall.
Qed.

Lemma shape_is_true {A} h w c (v : list (list (list A))) :
  shape_is h w c v = true <-> has_shape h w c v.
Proof.
  unfold shape_is, has_shape.
  rewrite andb_true_iff, Nat.eqb_eq, forallb_true.
  apply and_iff_compat_l. split; intros Hall.
  - eapply Forall_impl; [exact Hall|]. intros row.
    rewrite andb_true_iff, Nat.eqb_eq, forallb_true.
    intros [? Hpx]. split; [done|].
    eapply Forall_impl; [exact Hpx|]. intros px. by rewrite Nat.eqb_eq.
  - eapply Forall_impl; [exact Hall|]. intros row [? Hpx].
    rewrite andb_true_iff, Nat.eqb_eq, forallb_true. split; [done|].
    eapply Forall_impl; [exact Hpx|]. intros px. by rewrite Nat.eqb_eq.
Qed.

Lemma has_shape_full h w c (x : fval) : has_shape h w c (full h w c x).
Proof.
  apply has_shape_of_rows.
  - apply repeat_length.
  - apply Forall_repeat, repeat_length.
  - apply Forall_repeat, Forall_repeat, repeat_length.
Qed.

Lemma has_shape_reverse0 {A} h w c (v : list (list (list A))) :
  has_shape h w c v -> has_shape h w c (reverse0 v).
Proof.
  intros [Hlen Hrows]. split.
  - unfold reverse0. by rewrite length_rev.
  - by apply Forall_rev'.
Qed.

Lemma has_shape_reverse1 {A} h w c (v : list (list (list A))) :
  has_shape h w c v -> has_shape h w c (reverse1 v).
Proof.
  intros [Hlen Hrows]. split.
  - unfold reverse1. by rewrite length_map.
  - unfold reverse1. apply Forall_map.
    eapply Forall_impl; [exact Hrows|]. intros row [Hw Hpx]. split.
    + by rewrite length_rev.
    + by apply Forall_rev'.
Qed.

Lemma has_shape_transpose {A} h w c (v : list (list (list A))) :
  (0 < h)%nat -> has_shape h w c v -> has_shape w h c (transpose v).
Proof.
  intros Hpos (Hlen & Hw & Hc)%has_shape_rows. unfold transpose.
  assert (Hhd : length (hd [] v) = w).
  { destruct Hw as [|row rest Hrow _]; [cbn in Hlen; lia|done]. }
  rewrite Hhd. apply has_shape_of_rows.
  - by apply transpose_w_length.
  - rewrite <- Hlen. apply transpose_w_rows.
  - by apply transpose_w_Forall.
Qed.

Lemma rot90_cases {A} k (v : list (list A)) :
  rot90_values k v = v \/
  rot90_values k v = transpose (reverse1 v) \/
  rot90_values k v = reverse0 (reverse1 v) \/
  rot90_values k v = reverse1 (transpose v).
Proof.
  unfold rot90_values. destruct (k mod 4) as [|[|[|[|]]]]; auto.
Qed.

(** Quarter turns keep the shape of a square image. *)
Lemma has_shape_rot90 {A} n c k (v : list (list (list A))) :
  (0 < n)%nat -> has_shape n n c v -> has_shape n n c (rot90_values k v).
Proof.
  intros Hpos Hv.
  destruct (rot90_cases k v) as [-> | [-> | [-> | ->]]];
    eauto using has_shape_reverse0, has_shape_reverse1, has_shape_transpose.
Qed.

Lemma has_shape_map3 {A B} (f : A -> B) h w c (v : list (list (list A))) :
  has_shape h w c v -> has_shape h w c (map3 f v).
Proof.
  intros [Hlen Hrows]. unfold map3. split; [by rewrite length_map|].
  apply Forall_map. eapply Forall_impl; [exact Hrows|].
  intros row [Hw Hpx]. split; [by rewrite length_map|].
  apply Forall_map. eapply Forall_impl; [exact Hpx|].
  intros px. by rewrite length_map.
Qed.

Lemma all3_reverse0 {A} (P : A -> Prop) v : all3 P v -> all3 P (reverse0 v).
Proof. apply Forall_rev'. Qed.

Lemma all3_reverse1 {A} (P : A -> Prop) v : all3 P v -> all3 P (reverse1 v).
Proof.
  intros Hv. unfold all3, reverse1. apply Forall_map.
  eapply Forall_impl; [exact Hv|]. intros row. apply Forall_rev'.
Qed.

Lemma all3_transpose {A} (P : A -> Prop) v : all3 P v -> all3 P (transpose v).
Proof. apply transpose_w_Forall. Qed.

Lemma all3_rot90 {A} (P : A -> Prop) k v : all3 P v -> all3 P (rot90_values k v).
Proof.
  intros Hv.
  destruct (rot90_cases k v) as [-> | [-> | [-> | ->]]];
    eauto using all3_reverse0, all3_reverse1, all3_transpose.
Qed.

Lemma all3_map3 {A B} (P : B -> Prop) (f : A -> B) v :
  all3 (fun x => P (f x)) v -> all3 P (map3 f v).
Proof.
  intros Hv. unfold all3, map3. apply Forall_map.
  eapply Forall_impl; [exact Hv|]. intros row Hrow. apply Forall_map.
  eapply Forall_impl; [exact Hrow|]. intros px. apply Forall_map.
Qed.

Lemma all3_impl {A} (P Q : A -> Prop) v :
  (forall x, P x -> Q x) -> all3 P v -> all3 Q v.
Proof.
  intros HPQ Hv. eapply Forall_impl; [exact Hv|].
  intros row Hrow. eapply Forall_impl; [exact Hrow|].
  intros px Hpx. eapply Forall_impl; [exact Hpx|]. exact HPQ.
Qed.

Lemma any_nan_false t :
  any_nan t = false <-> all3 (fun x => is_nan x = false) (t_values t).
Proof.
  unfold any_nan, all3. rewrite existsb_false. split; intros Hall.
  - eapply Forall_impl; [exact Hall|]. intros row. rewrite existsb_false.
    intros Hrow. eapply Forall_impl; [exact Hrow|]. intros px.
    by rewrite existsb_false.
  - eapply Forall_impl; [exact Hall|]. intros row Hrow. rewrite existsb_false.
    eapply Forall_impl; [exact Hrow|]. intros px. by rewrite existsb_false.
Qed.

(** A constant square image is unchanged by flips and quarter turns. *)
Lemma reverse0_full h w c x : reverse0 (full h w c x) = full h w c x.
Proof. apply rev_repeat. Qed.

Lemma reverse1_full h w c x : reverse1 (full h w c x) = full h w c x.
Proof. unfold reverse1, full. by rewrite map_repeat, rev_repeat. Qed.

Lemma transpose_full n c x : transpose (full n n c x) = full n n c x.
Proof.
  unfold transpose, full. destruct n as [|n]; [done|].
  cbn [repeat hd]. rewrite length_cons, repeat_length.
  apply (transpose_w_repeat (repeat x c) (S n) (S n)).
Qed.

Lemma rot90_full n c k x : rot90_values k (full n n c x) = full n n c x.
Proof.
  destruct (rot90_cases k (full n n c x)) as [-> | [-> | [-> | ->]]];
    by rewrite ?reverse1_full, ?transpose_full, ?reverse0_full, ?reverse1_full.
Qed.

Lemma map3_full f h w c x : map3 f (full h w c x) = full h w c (f x).
Proof. unfold map3, full. by rewrite !map_repeat. Qed.

Lemma full_inj h w c x y :
  (0 < h)%nat -> (0 < w)%nat -> (0 < c)%nat ->
  full h w c x = full h w c y -> x = y.
Proof.
  unfold full. destruct h, w, c; try lia. intros _ _ _. cbn [repeat].
  congruence.
Qed.

(** ** The image loader *)

Lemma clamp01_range q : (0 <= clamp01 q /\ clamp01 q <= 1)%Q.
Proof.
  unfold clamp01. split.
  - apply Q.le_max_r.
  - apply Q.max_lub; [apply Q.le_min_r|discriminate].
Qed.

Lemma clamp01_nonpositive q : (q <= 0)%Q -> (clamp01 q == 0)%Q.
Proof.
  intros Hq. unfold clamp01. apply Q.max_r.
  eapply Qle_trans; [apply Q.le_min_l|exact Hq].
Qed.

Lemma clamp01_positive q : (0 < q)%Q -> (0 < clamp01 q)%Q.
Proof.
  intros Hq. unfold clamp01.
  eapply Qlt_le_trans; [|apply Q.le_max_l].
  destruct (Q.min_spec q 1) as [[_ ->] | [_ ->]]; [exact Hq|reflexivity].
Qed.

Lemma byte_fraction_in_unit b : in_unit (Fin (Q_of_byte b / 255)).
Proof. destruct b; split; vm_compute; discriminate. Qed.

Lemma fclip_in_unit x : is_nan x = false -> in_unit (fclip 0 1 x).
Proof. destruct x as [|q]; [discriminate|]. intros _. apply clamp01_range. Qed.

Lemma fadd_not_nan d x : is_nan x = false -> is_nan (fadd d x) = false.
Proof. by destruct x. Qed.

Lemma in_unit_not_nan x : in_unit x -> is_nan x = false.
Proof. by destruct x. Qed.

Lemma astype_in_unit m : all3 in_unit (t_values (astype_float32_div255 m)).
Proof.
  cbn. apply Forall_map, List.Forall_forall. intros row _.
  apply Forall_map, List.Forall_forall. intros [[c0 c1] c2] _.
  repeat constructor; apply byte_fraction_in_unit.
Qed.

Lemma astype_shape m h w :
  length m = h -> Forall (fun row => length row = w) m ->
  has_shape h w 3 (t_values (astype_float32_div255 m)).
Proof.
  intros Hlen Hrows. cbn. split; [by rewrite length_map|].
  apply Forall_map. eapply Forall_impl; [exact Hrows|].
  intros row Hrow. split; [by rewrite length_map|].
  apply Forall_map, List.Forall_forall. by intros [[c0 c1] c2] _.
Qed.

Lemma has_shape_random_flips coin_lr coin_ud t h w c :
  has_shape h w c (t_values t) ->
  has_shape h w c
    (t_values (random_flip_up_down coin_ud (random_flip_left_right coin_lr t))).
Proof.
  destruct coin_lr, coin_ud; cbn;
    eauto using has_shape_reverse0, has_shape_reverse1.
Qed.

Lemma all3_random_flips (P : fval -> Prop) coin_lr coin_ud t :
  all3 P (t_values t) ->
  all3 P (t_values (random_flip_up_down coin_ud (random_flip_left_right coin_lr t))).
Proof.
  destruct coin_lr, coin_ud; cbn; eauto using all3_reverse0, all3_reverse1.
Qed.

Lemma dtype_random_flips coin_lr coin_ud t :
  t_dtype (random_flip_up_down coin_ud (random_flip_left_right coin_lr t)) = t_dtype t.
Proof. by destruct coin_lr, coin_ud. Qed.

(** The augmentation sequence of [preprocess_image], on a tensor. *)
Lemma augmented_tensor_ok rnd t :
  t_dtype t = float32 ->
  has_shape IMG_SIZE IMG_SIZE 3 (t_values t) ->
  all3 (fun x => is_nan x = false) (t_values t) ->
  let out :=
    clip_by_value
      (adjust_brightness
         (rot90 (random_flip_up_down (flip_ud rnd)
                   (random_flip_left_right (flip_lr rnd) t)) (rot_k rnd))
         (delta rnd)) 0 1 in
  t_dtype out = float32 /\
  has_shape IMG_SIZE IMG_SIZE 3 (t_values out) /\
  all3 in_unit (t_values out).
Proof.
  intros Hd Hshape Hnan out. subst out. split; [|split].
  - cbn. by rewrite dtype_random_flips.
  - cbn. do 2 apply has_shape_map3.
    apply has_shape_rot90; [unfold IMG_SIZE; lia|].
    by apply has_shape_random_flips.
  - cbn. do 2 apply all3_map3. apply all3_rot90.
    eapply all3_impl; [|apply all3_random_flips, Hnan].
    intros x Hx. by apply fclip_in_unit, fadd_not_nan.
Qed.

Section LoaderFacts.

Variable imdecode : string -> option mat.
Variable resize : mat -> nat * nat -> mat.

(** [cv2.resize] delivers the requested size. *)
Hypothesis resize_dsize : forall m w h,
  length (resize m (w, h)) = h /\
  Forall (fun row => length row = w) (resize m (w, h)).

Lemma decoded_tensor_ok m :
  let t := astype_float32_div255 (resize (cvtColor_BGR2RGB m) (IMG_SIZE, IMG_SIZE)) in
  t_dtype t = float32 /\
  has_shape IMG_SIZE IMG_SIZE 3 (t_values t) /\
  all3 in_unit (t_values t).
Proof using resize_dsize.
  intros t. subst t. split; [done|]. split.
  - apply astype_shape; apply resize_dsize.
  - apply astype_in_unit.
Qed.

(** An unreadable image: the warning, and the blank image as it comes
    out of the rest of the function. *)
Lemma preprocess_image_unreadable fs self rnd img_path :
  imread imdecode fs (Py.path_join (root_dir self) img_path) = None ->
  preprocess_image imdecode resize fs self rnd img_path =
  (["警告：无法读取图片 " +:+ img_path],
   Py.Ok (if is_training self
          then {| t_dtype := float32;
                  t_values := full IMG_SIZE IMG_SIZE 3
                                (Fin (clamp01 (0 + delta rnd))) |}
          else zeros IMG_SIZE IMG_SIZE 3)).
Proof.
  intros Hread. unfold preprocess_image, convert_to_tensor. rewrite Hread.
  destruct (is_training self); [|done].
  assert (Hnan : any_nan (zeros IMG_SIZE IMG_SIZE 3) = false).
  { apply any_nan_false. unfold zeros, full. cbn [t_values].
    by do 3 apply Forall_repeat. }
  assert (Hshape : shape_is IMG_SIZE IMG_SIZE 3
                     (t_values (zeros IMG_SIZE IMG_SIZE 3)) = true).
  { apply shape_is_true, has_shape_full. }
  cbn -[zeros any_nan shape_is IMG_SIZE String.append].
  rewrite Hnan. unfold assert_shape. rewrite Hshape.
  cbn -[IMG_SIZE full String.append]. do 3 f_equal.
  unfold clip_by_value, adjust_brightness, rot90.
  destruct (flip_lr rnd), (flip_ud rnd);
    unfold random_flip_up_down, random_flip_left_right, over_values, zeros;
    cbn [t_values t_dtype];
    by rewrite ?reverse1_full, ?reverse0_full, rot90_full, !map3_full.
Qed.

(** A decoded image: no warning, and the scaled image, augmented in
    training mode. *)
Lemma preprocess_image_decoded fs self rnd img_path m :
  imread imdecode fs (Py.path_join (root_dir self) img_path) = Some m ->
  let img := astype_float32_div255
               (resize (cvtColor_BGR2RGB m) (IMG_SIZE, IMG_SIZE)) in
  preprocess_image imdecode resize fs self rnd img_path =
  ([],
   Py.Ok (if is_training self
          then clip_by_value
                 (adjust_brightness
                    (rot90 (random_flip_up_down (flip_ud rnd)
                              (random_flip_left_right (flip_lr rnd) img))
                           (rot_k rnd))
                    (delta rnd)) 0 1
          else img)).
Proof using resize_dsize.
  intros Hread img. unfold preprocess_image, convert_to_tensor. rewrite Hread.
  destruct (decoded_tensor_ok m) as (Hd & Hshape & Hunit). fold img in Hd, Hshape, Hunit.
  destruct (is_training self); [|done].
  assert (Hnan : any_nan img = false).
  { apply any_nan_false. eapply all3_impl; [|exact Hunit].
    apply in_unit_not_nan. }
  apply shape_is_true in Hshape.
  cbn -[any_nan shape_is IMG_SIZE String.append astype_float32_div255
        clip_by_value adjust_brightness rot90 random_flip_up_down
        random_flip_left_right].
  fold img. rewrite Hnan. unfold assert_shape. rewrite Hshape. done.
Qed.

End LoaderFacts.

Lemma nearest_resize_dsize m w h :
  length (nearest_resize m (w, h)) = h /\
  Forall (fun row => length row = w) (nearest_resize m (w, h)).
Proof.
  unfold nearest_resize. split.
  - by rewrite length_map, length_seq.
  - apply Forall_map, List.Forall_forall. intros i _.
    by rewrite length_map, length_seq.
Qed.

(** C1 as stated fails: with no file on disk and a brightness draw of
    1/10, training mode returns a tensor whose entries are 1/10, not the
    all-zero tensor. *)
Lemma unreadable_image_is_brightened :
  ~ (forall imdecode resize fs self rnd img_path,
        (forall m w h,
            length (resize m (w, h)) = h /\
            Forall (fun row => length row = w) (resize m (w, h))) ->
        is_training self = true ->
        imread imdecode fs (Py.path_join (root_dir self) img_path) = None ->
        Py.outcome (preprocess_image imdecode resize fs self rnd img_path)
        = Py.Ok (zeros IMG_SIZE IMG_SIZE 3)).
Proof.
  intros Hclaim.
  specialize (Hclaim one_pixel_decode nearest_resize ∅
                (training_set [("c.jpg", 0%Z)]) brighter "c.jpg"
                nearest_resize_dsize eq_refl eq_refl).
  rewrite preprocess_image_unreadable in Hclaim by reflexivity.
  cbn [Py.outcome snd training_set is_training] in Hclaim.
  assert (Hvalues : full IMG_SIZE IMG_SIZE 3 (Fin (clamp01 (0 + delta brighter)))
                    = full IMG_SIZE IMG_SIZE 3 (Fin 0)).
  { exact (f_equal (fun r => match r with
                             | Py.Ok t => t_values t
                             | Py.Raise _ => []
                             end) Hclaim). }
  apply full_inj in Hvalues; [|unfold IMG_SIZE; lia..].
  vm_compute in Hvalues. discriminate.
Qed.

(** C1, amended: for an image that is missing or does not decode,
    [preprocess_image] in training mode prints the warning, raises
    nothing, and returns a float32 tensor of shape (224, 224, 3) whose
    entries all equal the brightness draw clamped to [0, 1]; they are
    zero exactly when the draw is not positive. *)
Theorem unreadable_image_in_training imdecode resize fs self rnd img_path :
  is_training self = true ->
  imread imdecode fs (Py.path_join (root_dir self) img_path) = None ->
  let level := clamp01 (0 + delta rnd) in
  preprocess_image imdecode resize fs self rnd img_path
  = (["警告：无法读取图片 " +:+ img_path],
     Py.Ok {| t_dtype := float32;
              t_values := full IMG_SIZE IMG_SIZE 3 (Fin level) |})
  /\ has_shape IMG_SIZE IMG_SIZE 3 (full IMG_SIZE IMG_SIZE 3 (Fin level))
  /\ (0 <= level /\ level <= 1)%Q
  /\ ((level == 0)%Q <-> (delta rnd <= 0)%Q).
Proof.
  intros Htrain Hread level.
  rewrite preprocess_image_unreadable by done. rewrite Htrain.
  split; [done|]. split; [apply has_shape_full|]. split; [apply clamp01_range|].
  subst level. split.
  - intros Hzero. apply Qnot_lt_le. intros Hpos.
    assert (Hlt : (0 < clamp01 (0 + delta rnd))%Q).
    { apply clamp01_positive. by rewrite Qplus_0_l. }
    rewrite Hzero in Hlt. by apply Qlt_irrefl in Hlt.
  - intros Hle. apply clamp01_nonpositive. by rewrite Qplus_0_l.
Qed.

Lemma unreadable_image_in_training_witness :
  preprocess_image one_pixel_decode nearest_resize ∅
    (training_set [("c.jpg", 0%Z)]) brighter "c.jpg"
  = (["警告：无法读取图片 " +:+ "c.jpg"],
     Py.Ok {| t_dtype := float32;
              t_values := full IMG_SIZE IMG_SIZE 3
                            (Fin (clamp01 (0 + delta brighter))) |}).
Proof.
  assert (Htrain : is_training (training_set [("c.jpg", 0%Z)]) = true)
    by reflexivity.
  assert (Hread : imread one_pixel_decode ∅
                    (Py.path_join (root_dir (training_set [("c.jpg", 0%Z)])) "c.jpg")
                  = None) by reflexivity.
  exact (proj1 (unreadable_image_in_training one_pixel_decode nearest_resize ∅
                  (training_set [("c.jpg", 0%Z)]) brighter "c.jpg" Htrain Hread)).
Defined.

(** The two shapes the result of [preprocess_image] can take. *)
Lemma decoded_result_ok resize m rnd (training : bool) :
  (forall m w h,
      length (resize m (w, h)) = h /\
      Forall (fun row => length row = w) (resize m (w, h))) ->
  let img := astype_float32_div255
               (resize (cvtColor_BGR2RGB m) (IMG_SIZE, IMG_SIZE)) in
  let out := if training
             then clip_by_value
                    (adjust_brightness
                       (rot90 (random_flip_up_down (flip_ud rnd)
                                 (random_flip_left_right (flip_lr rnd) img))
                              (rot_k rnd))
                       (delta rnd)) 0 1
             else img in
  t_dtype out = float32 /\
  has_shape IMG_SIZE IMG_SIZE 3 (t_values out) /\
  all3 in_unit (t_values out).
Proof.
  intros Hresize img out. subst out.
  destruct (decoded_tensor_ok resize Hresize m) as (Hd & Hshape & Hunit).
  fold img in Hd, Hshape, Hunit.
  destruct training; [|done].
  apply augmented_tensor_ok; [done..|].
  eapply all3_impl; [|exact Hunit]. apply in_unit_not_nan.
Qed.

Lemma unreadable_result_ok rnd (training : bool) :
  let out := if training
             then {| t_dtype := float32;
                     t_values := full IMG_SIZE IMG_SIZE 3
                                   (Fin (clamp01 (0 + delta rnd))) |}
             else zeros IMG_SIZE IMG_SIZE 3 in
  t_dtype out = float32 /\
  has_shape IMG_SIZE IMG_SIZE 3 (t_values out) /\
  all3 in_unit (t_values out).
Proof.
  intros out. subst out.
  destruct training; cbn [t_dtype t_values zeros];
    (split; [done|]); (split; [apply has_shape_full|]);
    unfold full; do 3 apply Forall_repeat.
  - apply clamp01_range.
  - done.
Qed.

(** [preprocess_image] returns what the generator's output signature
    asks of an image. *)
Lemma preprocess_image_signature imdecode resize fs self rnd img_path :
  (forall m w h,
      length (resize m (w, h)) = h /\
      Forall (fun row => length row = w) (resize m (w, h))) ->
  exists img,
    Py.outcome (preprocess_image imdecode resize fs self rnd img_path) = Py.Ok img /\
    t_dtype img = float32 /\
    has_shape IMG_SIZE IMG_SIZE 3 (t_values img).
Proof.
  intros Hresize.
  destruct (imread imdecode fs (Py.path_join (root_dir self) img_path))
    as [m|] eqn:Hread.
  - rewrite (preprocess_image_decoded _ _ Hresize _ _ _ _ _ Hread).
    destruct (decoded_result_ok resize m rnd (is_training self) Hresize)
      as (Hd & Hshape & _).
    eauto.
  - rewrite preprocess_image_unreadable by done.
    destruct (unreadable_result_ok rnd (is_training self)) as (Hd & Hshape & _).
    eauto.
Qed.

(** C7: whatever the path leads to (a decodable image, no file, or a
    file that does not decode) and in both modes, [preprocess_image]
    returns a float32 tensor of shape (224, 224, 3) with every value in
    [0, 1], provided [cv2.resize] delivers the size it is asked for. *)
Theorem preprocess_image_shape_dtype_range imdecode resize fs self rnd img_path :
  (forall m w h,
      length (resize m (w, h)) = h /\
      Forall (fun row => length row = w) (resize m (w, h))) ->
  exists img,
    Py.outcome (preprocess_image imdecode resize fs self rnd img_path) = Py.Ok img /\
    t_dtype img = float32 /\
    has_shape IMG_SIZE IMG_SIZE 3 (t_values img) /\
    all3 in_unit (t_values img).
Proof.
  intros Hresize.
  destruct (imread imdecode fs (Py.path_join (root_dir self) img_path))
    as [m|] eqn:Hread.
  - (* the file decodes: scaled to [0, 1], then augmented and clamped *)
    rewrite (preprocess_image_decoded _ _ Hresize _ _ _ _ _ Hread).
    eexists. split; [reflexivity|].
    apply (decoded_result_ok resize m rnd (is_training self) Hresize).
  - (* missing or corrupt: the blank image, brightened and clamped *)
    rewrite preprocess_image_unreadable by done.
    eexists. split; [reflexivity|].
    apply (unreadable_result_ok rnd (is_training self)).
Qed.

Lemma preprocess_image_shape_dtype_range_witness :
  exists img,
    Py.outcome (preprocess_image one_pixel_decode nearest_resize one_image
                  (training_set [("a.jpg", 0%Z)]) turned "a.jpg") = Py.Ok img /\
    t_dtype img = float32 /\
    has_shape IMG_SIZE IMG_SIZE 3 (t_values img) /\
    all3 in_unit (t_values img).
Proof.
  apply (preprocess_image_shape_dtype_range one_pixel_decode nearest_resize
           one_image (training_set [("a.jpg", 0%Z)]) turned "a.jpg").
  exact nearest_resize_dsize.
Defined.

(** ** The learning-rate callback *)

Lemma Qltb_true a b : (a < b)%Q -> Keras.Qltb a b = true.
Proof.
  intros Hlt. unfold Keras.Qltb. apply negb_true_iff.
  destruct (Qle_bool b a) eqn:Hle; [|done].
  apply Qle_bool_iff in Hle. by apply Qle_not_lt in Hle.
Qed.

Lemma Qltb_false a b : (b <= a)%Q -> Keras.Qltb a b = false.
Proof.
  intros Hle. unfold Keras.Qltb. apply negb_false_iff. by apply Qle_bool_iff.
Qed.

(** An epoch without improvement, before the patience runs out. *)
Lemma on_epoch_end_waits factor patience st b current :
  Keras.best st = Some b -> Keras.cooldown_counter st = 0 ->
  (b - Keras.min_delta <= current)%Q ->
  S (Keras.wait st) < patience ->
  Keras.on_epoch_end factor patience st current
  = {| Keras.lr := Keras.lr st; Keras.best := Some b;
       Keras.wait := S (Keras.wait st); Keras.cooldown_counter := 0 |}.
Proof.
  destruct st as [lr0 best0 wait0 cooling]. cbn [Keras.best Keras.wait
    Keras.cooldown_counter Keras.lr]. intros -> -> Hflat Hwait.
  unfold Keras.on_epoch_end, Keras.in_cooldown.
  cbn [Keras.best Keras.wait Keras.cooldown_counter Keras.lr Nat.ltb Nat.leb
       negb Keras.monitor_op].
  rewrite (Qltb_false _ _ Hflat).
  by destruct (Nat.leb_spec patience (S wait0)); [lia|].
Qed.

(** An epoch without improvement that exhausts the patience. *)
Lemma on_epoch_end_reduces factor patience st b current :
  Keras.best st = Some b -> Keras.cooldown_counter st = 0 ->
  (b - Keras.min_delta <= current)%Q ->
  patience <= S (Keras.wait st) ->
  (0 < Keras.lr st)%Q ->
  Keras.on_epoch_end factor patience st current
  = {| Keras.lr := Qmax (Keras.lr st * factor) 0; Keras.best := Some b;
       Keras.wait := 0; Keras.cooldown_counter := 0 |}.
Proof.
  destruct st as [lr0 best0 wait0 cooling]. cbn [Keras.best Keras.wait
    Keras.cooldown_counter Keras.lr]. intros -> -> Hflat Hwait Hlr.
  unfold Keras.on_epoch_end, Keras.in_cooldown.
  cbn [Keras.best Keras.wait Keras.cooldown_counter Keras.lr Nat.ltb Nat.leb
       negb Keras.monitor_op].
  rewrite (Qltb_false _ _ Hflat).
  destruct (Nat.leb_spec patience (S wait0)); [|lia].
  unfold Keras.min_lr. by rewrite (Qltb_true _ _ Hlr).
Qed.

(** C3 as stated fails: after a first epoch with validation loss 1 and
    two more epochs at the same loss, the learning rate 0.001 has become
    0.0002, not 0.0005. *)
Lemma plateau_does_not_halve :
  ~ (forall train_dataset val_dataset loss,
        let args := main_fit_args train_dataset val_dataset in
        (lr_after args [loss; loss; loss] == learning_rate args * (1 # 2))%Q).
Proof.
  intros Hclaim.
  specialize (Hclaim (training_set []) (validation_set []) 1%Q).
  vm_compute in Hclaim. discriminate.
Qed.

(** C3, amended: the callback list of [main] leaves the learning rate
    alone after one epoch without improvement of the validation loss and,
    after a second one in a row, multiplies it by 0.2. *)
Theorem plateau_multiplies_lr_by_one_fifth train_dataset val_dataset st b loss1 loss2 :
  Keras.best st = Some b ->
  Keras.wait st = 0 ->
  Keras.cooldown_counter st = 0 ->
  (0 < Keras.lr st)%Q ->
  (b - Keras.min_delta <= loss1)%Q ->
  (b - Keras.min_delta <= loss2)%Q ->
  let cbs := callbacks (main_fit_args train_dataset val_dataset) in
  let st1 := callbacks_on_epoch_end cbs st loss1 in
  let st2 := callbacks_on_epoch_end cbs st1 loss2 in
  Keras.lr st1 = Keras.lr st /\
  (Keras.lr st2 == Keras.lr st * (2 # 10))%Q /\
  In (ReduceLROnPlateau (2 # 10) 2) cbs.
Proof.
  intros Hbest Hwait Hcool Hlr Hflat1 Hflat2 cbs st1 st2.
  assert (Hst1 : st1 = {| Keras.lr := Keras.lr st; Keras.best := Some b;
                          Keras.wait := 1; Keras.cooldown_counter := 0 |}).
  { subst st1 cbs. cbn [callbacks main_fit_args callbacks_on_epoch_end fold_left
                        callback_on_epoch_end].
    rewrite (on_epoch_end_waits _ _ _ b) by (done || lia). by rewrite Hwait. }
  assert (Hst2 : Keras.lr st2 = Qmax (Keras.lr st * (2 # 10)) 0).
  { subst st2 cbs. rewrite Hst1.
    cbn [callbacks main_fit_args callbacks_on_epoch_end fold_left
         callback_on_epoch_end].
    by rewrite (on_epoch_end_reduces _ _ _ b). }
  split; [by rewrite Hst1|]. split.
  - rewrite Hst2. apply Q.max_l.
    apply Qmult_le_0_compat; [by apply Qlt_le_weak|discriminate].
  - right. by left.
Qed.

Lemma plateau_multiplies_lr_by_one_fifth_witness :
  let st := {| Keras.lr := 1 # 1000; Keras.best := Some 1%Q;
               Keras.wait := 0; Keras.cooldown_counter := 0 |} in
  let cbs := callbacks (main_fit_args (training_set []) (validation_set [])) in
  (Keras.lr (callbacks_on_epoch_end cbs (callbacks_on_epoch_end cbs st 1) 1)
   == (1 # 1000) * (2 # 10))%Q.
Proof.
  intros st cbs.
  apply (plateau_multiplies_lr_by_one_fifth (training_set []) (validation_set [])
           st 1%Q 1%Q 1%Q); try reflexivity; vm_compute; discriminate.
Defined.

(** ** The exporter *)

(** C10: [convert_to_tflite] does the same for any two values of its
    dataset argument: same file system afterwards, so the same bytes under
    [filename], and the same output; the bytes are those of the converter
    applied to the model. *)
Theorem convert_to_tflite_ignores_dataset {Model D1 D2 : Type}
    (convert : @converter Model -> string) (fs : gmap string string)
    (model : Model) (dataset1 : D1) (dataset2 : D2) (filename : string) :
  convert_to_tflite convert fs model dataset1 filename
  = convert_to_tflite convert fs model dataset2 filename
  /\ fst (convert_to_tflite convert fs model dataset1 filename) !! filename
     = fst (convert_to_tflite convert fs model dataset2 filename) !! filename
  /\ fst (convert_to_tflite convert fs model dataset1 filename) !! filename
     = Some (convert {| conv_model := model;
                        optimizations := [OPTIMIZE_DEFAULT];
                        supported_types := [float16] |}).
Proof.
  split; [done|]. split; [done|].
  unfold convert_to_tflite. cbn [fst]. apply lookup_insert_eq.
Qed.

(** ** The generator and the batches *)

Lemma outcome_bind {A B} (f : A -> Py.io B) (m : Py.io A) :
  Py.outcome (m ≫= f) =
  match Py.outcome m with
  | Py.Ok a => Py.outcome (f a)
  | Py.Raise e => Py.Raise e
  end.
Proof.
  destruct m as [out [a|e]]; cbn; [|done]. by destruct (f a).
Qed.

Section StreamFacts.

Variable self : GarbageDataset.
Variable np_permutation : nat -> nat -> list nat.

(** [np.random.permutation(n)] returns a permutation of 0..n-1. *)
Hypothesis permutation_ok : forall j n, Permutation (np_permutation j n) (seq 0 n).

Lemma permutation_in_range j n : Forall (fun idx => idx < n) (np_permutation j n).
Proof using permutation_ok.
  apply List.Forall_forall. intros idx Hin.
  apply (Permutation_in _ (permutation_ok j n)), in_seq in Hin. lia.
Qed.

Lemma permutation_length j n : length (np_permutation j n) = n.
Proof using permutation_ok.
  by rewrite (Permutation_length (permutation_ok j n)), length_seq.
Qed.

Lemma advance_stuck n st :
  advance self np_permutation st = None ->
  advance_n self np_permutation n st = ([], st).
Proof. intros Hstuck. destruct n; cbn; by rewrite ?Hstuck. Qed.

Lemma advance_n_add a b st :
  advance_n self np_permutation (a + b) st =
  let '(idxs1, st1) := advance_n self np_permutation a st in
  let '(idxs2, st2) := advance_n self np_permutation b st1 in
  (idxs1 ++ idxs2, st2).
Proof.
  revert st. induction a as [|a IH]; intros st; cbn.
  - by destruct (advance_n self np_permutation b st).
  - destruct (advance self np_permutation st) as [[idx st']|] eqn:Hadv.
    + rewrite IH. destruct (advance_n self np_permutation a st') as [idxs1 st1].
      by destruct (advance_n self np_permutation b st1).
    + by rewrite (advance_stuck b st Hadv).
Qed.

(** Within the running pass. *)
Lemma advance_n_pending k st :
  k <= length (pending st) ->
  advance_n self np_permutation k st =
  (take k (pending st),
   {| pending := drop k (pending st); np_pos := np_pos st; tf_pos := tf_pos st + k |}).
Proof.
  revert st. induction k as [|k IH]; intros [pend np tf]; cbn [pending np_pos tf_pos].
  - intros _. cbn. by rewrite drop_0, Nat.add_0_r.
  - destruct pend as [|idx rest]; cbn [length]; [lia|]. intros Hk.
    cbn. rewrite IH by (cbn; lia). cbn. do 3 f_equal. lia.
Qed.

(** From the end of a pass: the next permutation is drawn. *)
Lemma advance_n_fresh k st :
  pending st = [] -> 0 < k <= length (data self) ->
  let perm := np_permutation (np_pos st) (length (data self)) in
  advance_n self np_permutation k st =
  (take k perm,
   {| pending := drop k perm; np_pos := S (np_pos st); tf_pos := tf_pos st + k |}).
Proof using permutation_ok.
  intros Hpend Hk perm. destruct k as [|k]; [lia|].
  pose proof (permutation_length (np_pos st) (length (data self))) as Hlen.
  fold perm in Hlen.
  cbn. unfold advance. rewrite Hpend. fold perm.
  destruct perm as [|idx rest]; cbn [length] in Hlen; [lia|].
  rewrite advance_n_pending by (cbn; lia). cbn. do 3 f_equal. lia.
Qed.

Lemma advance_frame_ok st :
  0 < length (data self) -> frame_ok self st ->
  exists idx st',
    advance self np_permutation st = Some (idx, st') /\
    idx < length (data self) /\ frame_ok self st' /\
    tf_pos st' = S (tf_pos st).
Proof using permutation_ok.
  intros Hne Hok. unfold advance, frame_ok in *.
  destruct (pending st) as [|idx rest] eqn:Hpend.
  - pose proof (permutation_length (np_pos st) (length (data self))) as Hlen.
    pose proof (permutation_in_range (np_pos st) (length (data self))) as Hin.
    destruct (np_permutation (np_pos st) (length (data self))) as [|idx rest];
      cbn [length] in Hlen; [lia|].
    inversion Hin; subst. eauto 10.
  - inversion Hok; subst. eauto 10.
Qed.

Lemma advance_n_frame_ok n st :
  0 < length (data self) -> frame_ok self st ->
  length (fst (advance_n self np_permutation n st)) = n /\
  Forall (fun idx => idx < length (data self))
         (fst (advance_n self np_permutation n st)) /\
  frame_ok self (snd (advance_n self np_permutation n st)) /\
  tf_pos (snd (advance_n self np_permutation n st)) = tf_pos st + n.
Proof using permutation_ok.
  intros Hne. revert st. induction n as [|n IH]; intros st Hok.
  - cbn. repeat split; [constructor|done|lia].
  - destruct (advance_frame_ok st Hne Hok) as (idx & st' & Hadv & Hidx & Hok' & Htf).
    destruct (IH st' Hok') as (Hlen & Hin & Hok'' & Htf').
    cbn. rewrite Hadv.
    destruct (advance_n self np_permutation n st') as [idxs st'']. cbn in *.
    repeat split; [lia|by constructor|done|lia].
Qed.

End StreamFacts.

Section GeneratorFacts.

Variable imdecode : string -> option mat.
Variable resize : mat -> nat * nat -> mat.
Variable fs : gmap string string.
Variable self : GarbageDataset.
Variable np_permutation : nat -> nat -> list nat.
Variable tf_draws : nat -> aug_draws.

Hypothesis resize_dsize : forall m w h,
  length (resize m (w, h)) = h /\
  Forall (fun row => length row = w) (resize m (w, h)).
Hypothesis permutation_ok : forall j n, Permutation (np_permutation j n) (seq 0 n).
Hypothesis index_not_empty : 0 < length (data self).

Lemma expected_item_ok u idx :
  idx < length (data self) ->
  exists img_path label,
    data self !! idx = Some (img_path, label) /\
    Py.outcome (preprocess_image imdecode resize fs self (tf_draws u) img_path)
    = Py.Ok (fst (expected_item imdecode resize fs self tf_draws u idx)) /\
    snd (expected_item imdecode resize fs self tf_draws u idx) = label /\
    t_dtype (fst (expected_item imdecode resize fs self tf_draws u idx)) = float32 /\
    has_shape IMG_SIZE IMG_SIZE 3
      (t_values (fst (expected_item imdecode resize fs self tf_draws u idx))).
Proof using resize_dsize.
  intros Hidx. destruct (lookup_lt_is_Some_2 _ _ Hidx) as [[img_path label] Hlook].
  exists img_path, label. unfold expected_item. rewrite Hlook.
  destruct (preprocess_image_signature imdecode resize fs self (tf_draws u) img_path
              resize_dsize) as (img & -> & Hd & Hshape).
  by cbn [fst snd].
Qed.

Lemma yield_sample_outcome st idx rest :
  idx < length (data self) ->
  Py.outcome (yield_sample imdecode resize fs self tf_draws st idx rest)
  = Py.Ok (Yielded (expected_item imdecode resize fs self tf_draws (tf_pos st) idx)
             {| pending := rest; np_pos := np_pos st; tf_pos := S (tf_pos st) |}).
Proof using resize_dsize.
  intros Hidx.
  destruct (expected_item_ok (tf_pos st) idx Hidx)
    as (img_path & label & Hlook & Himg & Hlabel & _).
  unfold yield_sample. rewrite Hlook, outcome_bind, Himg. cbn [Py.outcome snd mret io_ret Py.ret].
  do 2 f_equal. rewrite <- Hlabel. by destruct (expected_item _ _ _ _ _ _ _).
Qed.

Lemma gen_next_pending fuel st idx rest :
  pending st = idx :: rest ->
  gen_next imdecode resize fs self np_permutation tf_draws fuel st
  = yield_sample imdecode resize fs self tf_draws st idx rest.
Proof. intros Hpend. destruct fuel; cbn; by rewrite Hpend. Qed.

(** Resuming a frame yields the element of the next index. *)
Lemma gen_next_outcome fuel st :
  frame_ok self st ->
  exists idx st',
    advance self np_permutation st = Some (idx, st') /\
    Py.outcome (gen_next imdecode resize fs self np_permutation tf_draws (S fuel) st)
    = Py.Ok (Yielded (expected_item imdecode resize fs self tf_draws (tf_pos st) idx) st').
Proof using resize_dsize permutation_ok index_not_empty.
  intros Hok. unfold advance, frame_ok in *.
  destruct (pending st) as [|idx rest] eqn:Hpend.
  - pose proof (permutation_length np_permutation permutation_ok
                  (np_pos st) (length (data self))) as Hlen.
    pose proof (permutation_in_range np_permutation permutation_ok
                  (np_pos st) (length (data self))) as Hin.
    cbn [gen_next]. rewrite Hpend.
    destruct (np_permutation (np_pos st) (length (data self))) as [|idx rest] eqn:Hperm;
      cbn [length] in Hlen; [lia|].
    inversion Hin; subst.
    erewrite gen_next_pending by reflexivity.
    rewrite yield_sample_outcome by done. eauto.
  - inversion Hok; subst.
    erewrite gen_next_pending by done.
    rewrite yield_sample_outcome by done. eauto.
Qed.

Lemma gen_take_outcome fuel n st :
  frame_ok self st ->
  Py.outcome (gen_take imdecode resize fs self np_permutation tf_draws (S fuel) n st)
  = Py.Ok (Some (expected_items imdecode resize fs self tf_draws (tf_pos st)
                   (fst (advance_n self np_permutation n st)),
                 snd (advance_n self np_permutation n st))).
Proof using resize_dsize permutation_ok index_not_empty.
  revert st. induction n as [|n IH]; intros st Hok; [done|].
  destruct (gen_next_outcome fuel st Hok) as (idx & st' & Hadv & Hnext).
  destruct (advance_frame_ok self np_permutation permutation_ok st
              index_not_empty Hok) as (idx' & st'' & Hadv' & _ & Hok' & Htf).
  rewrite Hadv in Hadv'. injection Hadv' as <- <-.
  cbn [gen_take advance_n]. rewrite outcome_bind, Hnext, outcome_bind, (IH st' Hok'), Hadv.
  destruct (advance_n self np_permutation n st') as [idxs fin].
  cbn. by rewrite Htf.
Qed.

End GeneratorFacts.

Section BatchFacts.

Variable imdecode : string -> option mat.
Variable resize : mat -> nat * nat -> mat.
Variable fs : gmap string string.
Variable self : GarbageDataset.
Variable np_permutation : nat -> nat -> list nat.
Variable tf_draws : nat -> aug_draws.

Hypothesis resize_dsize : forall m w h,
  length (resize m (w, h)) = h /\
  Forall (fun row => length row = w) (resize m (w, h)).
Hypothesis permutation_ok : forall j n, Permutation (np_permutation j n) (seq 0 n).
Hypothesis index_not_empty : 0 < length (data self).
(** Labels fit the int32 scalar of the output signature. *)
Hypothesis labels_int32 : Forall (fun s => int32_ok (snd s) = true) (data self).

Lemma expected_items_app u idxs1 idxs2 :
  expected_items imdecode resize fs self tf_draws u (idxs1 ++ idxs2)
  = expected_items imdecode resize fs self tf_draws u idxs1 ++
    expected_items imdecode resize fs self tf_draws (u + length idxs1) idxs2.
Proof.
  revert u. induction idxs1 as [|idx idxs1 IH]; intros u; cbn.
  - by rewrite Nat.add_0_r.
  - rewrite IH. do 3 f_equal. lia.
Qed.

Lemma expected_items_length u idxs :
  length (expected_items imdecode resize fs self tf_draws u idxs) = length idxs.
Proof. revert u. induction idxs; intros u; cbn; by rewrite ?IHidxs. Qed.

Lemma expected_items_labels u idxs :
  Forall (fun idx => idx < length (data self)) idxs ->
  map snd (expected_items imdecode resize fs self tf_draws u idxs)
  = labels_along self idxs.
Proof.
  intros Hall. revert u. induction Hall as [|idx idxs Hidx _ IH]; intros u; [done|].
  cbn. rewrite IH. unfold expected_item.
  destruct (lookup_lt_is_Some_2 _ _ Hidx) as [[img_path label] ->]. done.
Qed.

Lemma expected_item_matches_signature u idx :
  idx < length (data self) ->
  matches_signature (expected_item imdecode resize fs self tf_draws u idx) = true.
Proof using resize_dsize labels_int32.
  intros Hidx.
  destruct (expected_item_ok imdecode resize fs self tf_draws resize_dsize u idx Hidx)
    as (img_path & label & Hlook & _ & Hlabel & Hd & Hshape).
  unfold matches_signature. rewrite Hd, (proj2 (shape_is_true _ _ _ _) Hshape), Hlabel.
  cbn [dtype_is andb].
  apply (proj1 (List.Forall_forall _ _) labels_int32 (img_path, label)).
  apply (proj1 (list_elem_of_In _ _)). eapply list_elem_of_lookup_2, Hlook.
Qed.

Lemma from_generator_next fuel st :
  frame_ok self st ->
  exists idx st',
    advance self np_permutation st = Some (idx, st') /\
    Py.outcome (get_next (from_generator imdecode resize fs self np_permutation tf_draws)
                  (S fuel) st)
    = Py.Ok (Some (expected_item imdecode resize fs self tf_draws (tf_pos st) idx, st')).
Proof using resize_dsize permutation_ok index_not_empty labels_int32.
  intros Hok.
  destruct (gen_next_outcome imdecode resize fs self np_permutation tf_draws
              resize_dsize permutation_ok index_not_empty fuel st Hok)
    as (idx & st' & Hadv & Hnext).
  destruct (advance_frame_ok self np_permutation permutation_ok st
              index_not_empty Hok) as (idx' & st'' & Hadv' & Hidx & _).
  rewrite Hadv in Hadv'. injection Hadv' as <- <-.
  exists idx, st'. split; [done|].
  cbn [get_next from_generator]. rewrite outcome_bind, Hnext.
  by rewrite expected_item_matches_signature.
Qed.

Lemma dataset_take_elements fuel n st :
  frame_ok self st ->
  Py.outcome (dataset_take (from_generator imdecode resize fs self np_permutation tf_draws)
                (S fuel) n st)
  = Py.Ok (Some (expected_items imdecode resize fs self tf_draws (tf_pos st)
                   (fst (advance_n self np_permutation n st)),
                 snd (advance_n self np_permutation n st))).
Proof using resize_dsize permutation_ok index_not_empty labels_int32.
  revert st. induction n as [|n IH]; intros st Hok; [done|].
  destruct (from_generator_next fuel st Hok) as (idx & st' & Hadv & Hnext).
  destruct (advance_frame_ok self np_permutation permutation_ok st
              index_not_empty Hok) as (idx' & st'' & Hadv' & _ & Hok' & Htf).
  rewrite Hadv in Hadv'. injection Hadv' as <- <-.
  cbn [dataset_take advance_n].
  rewrite outcome_bind, Hnext, outcome_bind, (IH st' Hok'), Hadv.
  destruct (advance_n self np_permutation n st') as [idxs fin].
  cbn. by rewrite Htf.
Qed.

Lemma advance_batches_frame_ok n st :
  frame_ok self st ->
  frame_ok self (snd (advance_batches self np_permutation n st)) /\
  length (fst (advance_batches self np_permutation n st)) = n /\
  Forall (fun b => length (snd b) = BATCH_SIZE /\
                   Forall (fun idx => idx < length (data self)) (snd b))
         (fst (advance_batches self np_permutation n st)).
Proof using permutation_ok index_not_empty.
  revert st. induction n as [|n IH]; intros st Hok; [by repeat constructor|].
  destruct (advance_n_frame_ok self np_permutation permutation_ok BATCH_SIZE st
              index_not_empty Hok) as (Hlen & Hin & Hok' & _).
  cbn [advance_batches].
  destruct (advance_n self np_permutation BATCH_SIZE st) as [idxs st'].
  destruct (IH st' Hok') as (Hok'' & Hlen' & Hall).
  destruct (advance_batches self np_permutation n st') as [bs st''].
  cbn [fst snd length] in *. split; [done|]. split; [by f_equal|].
  by constructor.
Qed.

Lemma dataset_take_batches fuel n st :
  frame_ok self st ->
  Py.outcome (dataset_take (create_dataset imdecode resize fs self np_permutation tf_draws)
                (S fuel) n st)
  = Py.Ok (Some (expected_batches imdecode resize fs self tf_draws
                   (fst (advance_batches self np_permutation n st)),
                 snd (advance_batches self np_permutation n st))).
Proof using resize_dsize permutation_ok index_not_empty labels_int32.
  revert st. induction n as [|n IH]; intros st Hok; [done|].
  destruct (advance_n_frame_ok self np_permutation permutation_ok BATCH_SIZE st
              index_not_empty Hok) as (_ & _ & Hok' & _).
  cbn [dataset_take advance_batches].
  change (get_next (create_dataset imdecode resize fs self np_permutation tf_draws)
            (S fuel) st)
    with (dataset_take (from_generator imdecode resize fs self np_permutation tf_draws)
            (S fuel) BATCH_SIZE st).
  rewrite outcome_bind, dataset_take_elements by done.
  destruct (advance_n self np_permutation BATCH_SIZE st) as [idxs st'].
  cbn [fst snd] in *. rewrite outcome_bind, (IH st' Hok').
  by destruct (advance_batches self np_permutation n st') as [bs st''].
Qed.

Lemma fit_epochs_outcome fuel steps n st :
  frame_ok self st ->
  Py.outcome (fit_epochs (create_dataset imdecode resize fs self np_permutation tf_draws)
                (S fuel) steps n st)
  = Py.Ok (Some (map (expected_batches imdecode resize fs self tf_draws)
                   (advance_epochs self np_permutation steps n st))).
Proof using resize_dsize permutation_ok index_not_empty labels_int32.
  revert st. induction n as [|n IH]; intros st Hok; [done|].
  destruct (advance_batches_frame_ok steps st Hok) as (Hok' & _).
  cbn [fit_epochs advance_epochs].
  rewrite outcome_bind, dataset_take_batches by done.
  destruct (advance_batches self np_permutation steps st) as [bs st'].
  cbn [fst snd] in *. by rewrite outcome_bind, (IH st' Hok').
Qed.

(** The batches, laid end to end, are the element stream. *)
Lemma expected_batches_concat n st :
  frame_ok self st ->
  concat (expected_batches imdecode resize fs self tf_draws
            (fst (advance_batches self np_permutation n st)))
  = expected_items imdecode resize fs self tf_draws (tf_pos st)
      (fst (advance_n self np_permutation (n * BATCH_SIZE) st))
  /\ snd (advance_batches self np_permutation n st)
     = snd (advance_n self np_permutation (n * BATCH_SIZE) st).
Proof using permutation_ok index_not_empty.
  revert st. induction n as [|n IH]; intros st Hok; [done|].
  destruct (advance_n_frame_ok self np_permutation permutation_ok BATCH_SIZE st
              index_not_empty Hok) as (Hlen & _ & Hok' & Htf).
  cbn [advance_batches Nat.mul]. rewrite advance_n_add.
  destruct (advance_n self np_permutation BATCH_SIZE st) as [idxs st'].
  destruct (IH st' Hok') as [Hcat Hfin].
  destruct (advance_batches self np_permutation n st') as [bs st''].
  destruct (advance_n self np_permutation (n * BATCH_SIZE) st') as [idxs' fin].
  cbn [fst snd expected_batches map concat] in *.
  split; [|done].
  rewrite expected_items_app. f_equal.
  by rewrite Hcat, Htf, Hlen.
Qed.

End BatchFacts.

Section PassFacts.

Variable self : GarbageDataset.
Variable np_permutation : nat -> nat -> list nat.
Hypothesis permutation_ok : forall j n, Permutation (np_permutation j n) (seq 0 n).
Hypothesis index_not_empty : 0 < length (data self).

(** One whole pass, from boundary to boundary. *)
Lemma advance_n_pass p :
  advance_n self np_permutation (length (data self))
    (pass_boundary (length (data self)) p)
  = (np_permutation p (length (data self)),
     pass_boundary (length (data self)) (S p)).
Proof using permutation_ok index_not_empty.
  rewrite advance_n_fresh by (done || cbn; lia).
  cbn [pass_boundary np_pos tf_pos].
  pose proof (permutation_length np_permutation permutation_ok p
                (length (data self))) as Hlen.
  rewrite firstn_all2, skipn_all2 by lia.
  unfold pass_boundary. do 2 f_equal. lia.
Qed.

Lemma advance_n_passes p :
  advance_n self np_permutation (p * length (data self)) generator
  = (passes np_permutation (length (data self)) p,
     pass_boundary (length (data self)) p).
Proof using permutation_ok index_not_empty.
  induction p as [|p IH]; [done|].
  replace (S p * length (data self))
    with (p * length (data self) + length (data self)) by lia.
  rewrite advance_n_add, IH, advance_n_pass.
  unfold passes. rewrite seq_S, map_app, concat_app. cbn [map concat Nat.add].
  by rewrite app_nil_r.
Qed.

End PassFacts.

Lemma back_and_forth_permutation j n : Permutation (back_and_forth j n) (seq 0 n).
Proof.
  unfold back_and_forth. destruct (Nat.even j); [done|].
  symmetry. apply Permutation_rev.
Qed.

Lemma forty_samples_int32 :
  Forall (fun s => int32_ok (snd s) = true) (data (training_set forty_samples)).
Proof.
  cbn [data training_set]. unfold forty_samples.
  apply Forall_map, List.Forall_forall. intros i [_ Hi]%in_seq. cbn [snd].
  unfold int32_ok. apply andb_true_iff. split; [apply Z.leb_le|apply Z.ltb_lt]; lia.
Qed.

Lemma forty_samples_length : length (data (training_set forty_samples)) = 40.
Proof. reflexivity. Qed.

(** C9: with a non-empty index, resuming the generator always yields an
    element and never ends or raises; any number of elements can be
    taken; and the first p * N elements are the samples along p
    permutations of the whole index, drawn one after another, after which
    the generator stands between two passes, about to draw the next. *)
Theorem generator_is_unbounded imdecode resize fs self np_permutation tf_draws :
  (forall m w h,
      length (resize m (w, h)) = h /\
      Forall (fun row => length row = w) (resize m (w, h))) ->
  (forall j n, Permutation (np_permutation j n) (seq 0 n)) ->
  0 < length (data self) ->
  (forall st, frame_ok self st ->
     exists x st',
       Py.outcome (gen_next imdecode resize fs self np_permutation tf_draws 1 st)
       = Py.Ok (Yielded x st') /\ frame_ok self st')
  /\ (forall n, exists xs st',
        Py.outcome (gen_take imdecode resize fs self np_permutation tf_draws 1 n generator)
        = Py.Ok (Some (xs, st')) /\ length xs = n)
  /\ (forall p,
        Py.outcome (gen_take imdecode resize fs self np_permutation tf_draws 1
                      (p * length (data self)) generator)
        = Py.Ok (Some (expected_items imdecode resize fs self tf_draws 0
                         (passes np_permutation (length (data self)) p),
                       pass_boundary (length (data self)) p))
        /\ Permutation (np_permutation p (length (data self)))
                       (seq 0 (length (data self)))).
Proof.
  intros Hresize Hperm Hne. split; [|split].
  - intros st Hok.
    destruct (gen_next_outcome imdecode resize fs self np_permutation tf_draws
                Hresize Hperm Hne 0 st Hok) as (idx & st' & Hadv & Hnext).
    destruct (advance_frame_ok self np_permutation Hperm st Hne Hok)
      as (idx' & st'' & Hadv' & _ & Hok' & _).
    rewrite Hadv in Hadv'. injection Hadv' as <- <-. eauto.
  - intros n.
    assert (Hstart : frame_ok self generator) by constructor.
    destruct (advance_n_frame_ok self np_permutation Hperm n generator Hne Hstart)
      as (Hlen & _).
    eexists _, _. split.
    + by apply gen_take_outcome.
    + by rewrite expected_items_length.
  - intros p. split; [|apply Hperm].
    rewrite gen_take_outcome by (done || constructor).
    by rewrite advance_n_passes.
Qed.

Lemma generator_is_unbounded_witness :
  exists xs st',
    Py.outcome (gen_take one_pixel_decode nearest_resize ∅ (training_set forty_samples)
                  back_and_forth same_draws 1 100 generator)
    = Py.Ok (Some (xs, st')) /\ length xs = 100.
Proof.
  assert (Hne : 0 < length (data (training_set forty_samples))).
  { rewrite forty_samples_length. lia. }
  destruct (generator_is_unbounded one_pixel_decode nearest_resize ∅
              (training_set forty_samples) back_and_forth same_draws
              nearest_resize_dsize back_and_forth_permutation Hne)
    as (_ & Hany & _).
  exact (Hany 100).
Defined.

(** With an empty index the generator draws empty permutations for ever
    and never yields. *)
Lemma empty_index_never_yields imdecode resize fs self np_permutation tf_draws fuel st :
  data self = [] -> (forall j, np_permutation j 0 = []) -> pending st = [] ->
  gen_next imdecode resize fs self np_permutation tf_draws fuel st = ([], Py.Ok Looping).
Proof.
  intros Hdata Hperm. revert st. induction fuel as [|fuel IH]; intros st Hpend.
  - cbn. by rewrite Hpend.
  - cbn [gen_next]. rewrite Hpend, Hdata. cbn [length]. rewrite Hperm.
    by apply IH.
Qed.

(** C8 as stated fails for the epochs after the first: with 40 samples
    [fit] takes one batch of 32 per epoch from the same iterator, and the
    batch of the second epoch holds the last 8 samples of the first
    permutation followed by 24 of the second, some of them twice. *)
Lemma second_epoch_mixes_two_permutations :
  ~ (forall imdecode resize fs self np_permutation tf_draws,
        (forall m w h,
            length (resize m (w, h)) = h /\
            Forall (fun row => length row = w) (resize m (w, h))) ->
        (forall j n, Permutation (np_permutation j n) (seq 0 n)) ->
        Forall (fun s => int32_ok (snd s) = true) (data self) ->
        num_samples self = length (data self) ->
        forall e es bs,
          Py.outcome (fit_epochs
                        (create_dataset imdecode resize fs self np_permutation tf_draws)
                        1 (num_samples self / BATCH_SIZE) (S e) generator)
          = Py.Ok (Some es) ->
          es !! e = Some bs ->
          length bs = num_samples self / BATCH_SIZE /\
          within_one_pass self np_permutation bs).
Proof.
  intros Hclaim.
  set (self := training_set forty_samples).
  assert (Hne : 0 < length (data self)) by (change (0 < 40); lia).
  pose proof (fit_epochs_outcome one_pixel_decode nearest_resize ∅ self back_and_forth
                same_draws nearest_resize_dsize back_and_forth_permutation Hne
                forty_samples_int32 0 (num_samples self / BATCH_SIZE) 2 generator)
    as Hfit.
  assert (Hidx : advance_epochs self back_and_forth (num_samples self / BATCH_SIZE) 2
                   generator
                 = [[(0, seq 0 32)]; [(32, seq 32 8 ++ rev (seq 16 24))]])
    by (vm_compute; reflexivity).
  rewrite Hidx in Hfit. cbn [map expected_batches] in Hfit.
  destruct (Hclaim one_pixel_decode nearest_resize ∅ self back_and_forth same_draws
              nearest_resize_dsize back_and_forth_permutation forty_samples_int32
              eq_refl 1 _ _ (Hfit ltac:(constructor)) eq_refl)
    as [_ (j & before & after & Hrun)].
  cbn [concat] in Hrun. rewrite app_nil_r, expected_items_labels in Hrun.
  2:{ apply List.Forall_forall. intros idx Hin. change (idx < 40).
      apply in_app_or in Hin as [Hin|Hin%in_rev]; apply in_seq in Hin; lia. }
  assert (Hnodup : NoDup (labels_along self (back_and_forth j (length (data self))))).
  { unfold back_and_forth. destruct (Nat.even j);
      apply (bool_decide_unpack _); vm_compute; exact I. }
  rewrite Hrun in Hnodup.
  apply NoDup_app in Hnodup as (_ & _ & Hnodup).
  apply NoDup_app in Hnodup as (Hnodup & _).
  revert Hnodup. apply (proj1 (bool_decide_eq_false _)).
  vm_compute. reflexivity.
Qed.

(** C8, amended: [steps_per_epoch] and [validation_steps] are the integer
    quotients of the sample counts by 32; and the first floor(N/32)
    batches taken from a newly started generator, which make up the first
    epoch, are complete and hold in order the first 32 * floor(N/32)
    samples of the first permutation, no second permutation having been
    drawn. *)
Theorem first_epoch_batches imdecode resize fs self other np_permutation tf_draws :
  (forall m w h,
      length (resize m (w, h)) = h /\
      Forall (fun row => length row = w) (resize m (w, h))) ->
  (forall j n, Permutation (np_permutation j n) (seq 0 n)) ->
  Forall (fun s => int32_ok (snd s) = true) (data self) ->
  num_samples self = length (data self) ->
  let steps := length (data self) / BATCH_SIZE in
  steps_per_epoch (main_fit_args self other) = steps /\
  validation_steps (main_fit_args other self) = steps /\
  exists bs st',
    Py.outcome (dataset_take
                  (create_dataset imdecode resize fs self np_permutation tf_draws)
                  1 steps generator)
    = Py.Ok (Some (bs, st')) /\
    length bs = steps /\
    Forall (fun b => length b = BATCH_SIZE) bs /\
    concat bs
    = expected_items imdecode resize fs self tf_draws 0
        (take (steps * BATCH_SIZE) (np_permutation 0 (length (data self)))) /\
    np_pos st' <= 1.
Proof.
  intros Hresize Hperm Hint Hnum steps.
  split; [by cbn; rewrite Hnum|]. split; [by cbn; rewrite Hnum|].
  assert (Hstart : frame_ok self generator) by constructor.
  destruct (Nat.eq_dec steps 0) as [Hzero|Hpos].
  { rewrite Hzero. exists [], generator. cbn. repeat split; (done || lia || constructor). }
  assert (Hsteps : 0 < steps * BATCH_SIZE <= length (data self)).
  { subst steps. unfold BATCH_SIZE in *.
    pose proof (Nat.Div0.mul_div_le (length (data self)) 32). lia. }
  assert (Hne : 0 < length (data self)) by lia.
  destruct (advance_batches_frame_ok self np_permutation Hperm Hne steps generator Hstart)
    as (_ & Hlen & Hall).
  destruct (expected_batches_concat imdecode resize fs self np_permutation tf_draws
              Hperm Hne steps generator Hstart) as [Hcat Hfin].
  rewrite (advance_n_fresh self np_permutation Hperm) in Hcat, Hfin by done.
  eexists _, _. split; [by apply dataset_take_batches|].
  split; [by unfold expected_batches; rewrite length_map|].
  split; [|split; [exact Hcat|by rewrite Hfin]].
  unfold expected_batches. apply Forall_map.
  eapply Forall_impl; [exact Hall|]. intros [u idxs] [Hb _].
  by rewrite expected_items_length.
Qed.

Lemma first_epoch_batches_witness :
  exists bs st',
    Py.outcome (dataset_take
                  (create_dataset one_pixel_decode nearest_resize ∅
                     (training_set forty_samples) back_and_forth same_draws)
                  1 (length (data (training_set forty_samples)) / BATCH_SIZE) generator)
    = Py.Ok (Some (bs, st')) /\
    length bs = length (data (training_set forty_samples)) / BATCH_SIZE /\
    Forall (fun b => length b = BATCH_SIZE) bs /\
    concat bs
    = expected_items one_pixel_decode nearest_resize ∅ (training_set forty_samples)
        same_draws 0
        (take (length (data (training_set forty_samples)) / BATCH_SIZE * BATCH_SIZE)
           (back_and_forth 0 (length (data (training_set forty_samples))))) /\
    np_pos st' <= 1.
Proof.
  assert (Hnum : num_samples (training_set forty_samples)
                 = length (data (training_set forty_samples))) by reflexivity.
  exact (proj2 (proj2 (first_epoch_batches one_pixel_decode nearest_resize ∅
                         (training_set forty_samples) (validation_set [])
                         back_and_forth same_draws nearest_resize_dsize
                         back_and_forth_permutation forty_samples_int32 Hnum))).
Defined.

(** * Further properties *)

(** ** Strings *)

Lemma append_cons c (a b : string) : String c a +:+ b = String c (a +:+ b).
Proof. reflexivity. Qed.

Lemma append_empty_l (a : string) : "" +:+ a = a.
Proof. reflexivity. Qed.



Lemma forall_chars_app p a b :
  forall_chars p (a +:+ b) = forall_chars p a && forall_chars p b.
Proof.
  induction a as [|x a IH]; [done|].
  rewrite append_cons. cbn [forall_chars]. by rewrite IH, andb_assoc.
Qed.


Lemma forall_chars_lstrip_by p q s :
  forall_chars p s = true -> forall_chars p (Py.lstrip_by q s) = true.
Proof.
  induction s as [|c s IH]; cbn; [done|].
  intros Hall. destruct (q c); [|done].
  apply andb_true_iff in Hall as [_ Hs]. by apply IH.
Qed.

(** [split]: what a step does, by the kind of character. *)
Lemma split_from_space cur c s :
  Py.isspace c = true ->
  Py.split_from cur (String c s) =
  match cur with
  | EmptyString => Py.split_from "" s
  | _ => cur :: Py.split_from "" s
  end.
Proof. intros Hc. cbn. by rewrite Hc. Qed.


Lemma split_from_blank s :
  forall_chars Py.isspace s = true -> Py.split_from "" s = [].
Proof.
  induction s as [|c s IH]; cbn; [done|].
  intros [Hc Hs]%andb_true_iff. rewrite Hc. by apply IH.
Qed.

(** Tokens are never empty and never hold whitespace. *)
Lemma split_from_tokens cur s :
  forall_chars not_space cur = true ->
  Forall (fun tok => tok <> "" /\ forall_chars not_space tok = true)
         (Py.split_from cur s).
Proof.
  revert cur. induction s as [|c s IH]; intros cur Hcur; cbn.
  - destruct cur; repeat constructor; done.
  - destruct (Py.isspace c) eqn:Hc.
    + destruct cur; [by apply IH|]. constructor; [done|by apply IH].
    + apply IH. rewrite forall_chars_app, Hcur. cbn. unfold not_space.
      by rewrite Hc.
Qed.

Lemma split_lstrip s : Py.split (Py.lstrip_by Py.isspace s) = Py.split s.
Proof.
  unfold Py.split. induction s as [|c s IH]; cbn; [done|].
  destruct (Py.isspace c) eqn:Hc; [done|]. cbn. by rewrite Hc.
Qed.

Lemma split_from_rstrip cur s :
  Py.split_from cur (Py.rstrip_by Py.isspace s) = Py.split_from cur s.
Proof.
  revert cur. induction s as [|c s IH]; intros cur; [done|].
  cbn [Py.rstrip_by].
  destruct (Py.rstrip_by Py.isspace s) as [|k kept] eqn:Hkept.
  - destruct (Py.isspace c) eqn:Hc.
    + rewrite split_from_space by done.
      rewrite <- (IH ""). cbn. by destruct cur.
    + cbn. rewrite Hc. by rewrite <- IH.
  - cbn. destruct (Py.isspace c); [|by rewrite <- IH].
    by rewrite <- IH.
Qed.

Lemma split_from_blank_tail cur s pad :
  forall_chars Py.isspace pad = true ->
  Py.split_from cur (s +:+ pad) = Py.split_from cur s.
Proof.
  intros Hpad. revert cur. induction s as [|c s IH]; intros cur.
  - rewrite append_empty_l. destruct pad as [|c pad]; [done|].
    cbn [forall_chars] in Hpad. apply andb_true_iff in Hpad as [Hc Hpad].
    rewrite split_from_space by done. rewrite split_from_blank by done.
    by destruct cur.
  - rewrite append_cons. cbn [Py.split_from].
    destruct (Py.isspace c); [|by rewrite IH].
    by destruct cur; rewrite IH.
Qed.

Lemma split_blank_head pad s :
  forall_chars Py.isspace pad = true -> Py.split (pad +:+ s) = Py.split s.
Proof.
  unfold Py.split. induction pad as [|c pad IH]; [done|].
  cbn [forall_chars]. intros [Hc Hpad]%andb_true_iff.
  rewrite append_cons, split_from_space by done. by apply IH.
Qed.

Lemma split_strip s : Py.split (Py.strip s) = Py.split s.
Proof.
  unfold Py.strip, Py.split. rewrite split_from_rstrip. apply split_lstrip.
Qed.

(** X1: the [strip()] in front of [split()] changes nothing, and a line
    is parsed the same with any whitespace put before or after it. *)
Theorem line_parsing_ignores_outer_whitespace line before after :
  forall_chars Py.isspace before = true ->
  forall_chars Py.isspace after = true ->
  Py.split (Py.strip line) = Py.split line /\
  sample_of_line (before +:+ line +:+ after) = sample_of_line line.
Proof.
  intros Hbefore Hafter. split; [apply split_strip|].
  unfold sample_of_line. rewrite !split_strip.
  rewrite split_blank_head by done. unfold Py.split.
  by rewrite split_from_blank_tail.
Qed.

Lemma line_parsing_ignores_outer_whitespace_witness :
  sample_of_line ("  " +:+ "a.jpg 3" +:+ nl) = sample_of_line "a.jpg 3".
Proof.
  apply (line_parsing_ignores_outer_whitespace "a.jpg 3" "  " nl); reflexivity.
Defined.

Lemma blank_line_ill_formed line :
  forall_chars Py.isspace line = true -> ~ well_formed_line line.
Proof.
  intros Hblank (path & label & n & Hsplit & _).
  rewrite split_strip in Hsplit. unfold Py.split in Hsplit.
  by rewrite split_from_blank in Hsplit.
Qed.

(** ** The sample index, further *)

(** X2: a manifest with a blank line anywhere (a line of whitespace
    only, such as an empty last line) makes [__init__] raise
    [ValueError]; nothing is printed. *)
Theorem blank_line_aborts_init fs root txt training content line :
  fs !! Py.path_join root txt = Some content ->
  In line (Py.file_lines content) ->
  forall_chars Py.isspace line = true ->
  GarbageDataset_init fs root txt training = ([], Py.Raise Py.ValueError).
Proof.
  intros Hfs Hin Hblank. rewrite (init_opened _ _ _ _ _ Hfs).
  rewrite read_samples_ill_formed; [done|].
  apply List.Exists_exists. exists line. split; [done|].
  by apply blank_line_ill_formed.
Qed.

Lemma blank_line_aborts_init_witness :
  GarbageDataset_init (train_txt manifest_blank_end) "garbage" "train.txt" true
  = ([], Py.Raise Py.ValueError).
Proof.
  apply (blank_line_aborts_init (train_txt manifest_blank_end) "garbage" "train.txt"
           true manifest_blank_end nl).
  - reflexivity.
  - right. left. reflexivity.
  - reflexivity.
Defined.

Lemma read_samples_Forall (P : string * Z -> Prop) lines acc samples :
  (forall line s, sample_of_line line = Py.Ok s -> P s) ->
  Forall P acc ->
  read_samples lines acc = Py.Ok samples -> Forall P samples.
Proof.
  intros Hline. revert acc. induction lines as [|line rest IH]; intros acc Hacc; cbn.
  - by intros [= <-].
  - destruct (sample_of_line line) as [s|e] eqn:Hs; [|done].
    apply IH. apply Forall_app. split; [done|]. repeat constructor. eauto.
Qed.

Lemma init_data_Forall (P : string * Z -> Prop) fs root txt training ds :
  (forall line s, sample_of_line line = Py.Ok s -> P s) ->
  Py.outcome (GarbageDataset_init fs root txt training) = Py.Ok ds ->
  Forall P (data ds) /\ root_dir ds = root /\ is_training ds = training.
Proof.
  intros Hline. unfold GarbageDataset_init, Py.open_r.
  destruct (fs !! Py.path_join root txt) as [content|]; [|discriminate].
  cbn. destruct (read_samples (Py.file_lines content) []) as [samples|e] eqn:Hread;
    [|discriminate].
  cbn. intros [= <-]. cbn. split; [|done].
  eapply read_samples_Forall; [exact Hline|constructor|exact Hread].
Qed.

Lemma lstrip_by_starts q s : starts_with q (Py.lstrip_by q s) = false.
Proof.
  induction s as [|c s IH]; cbn; [done|].
  destruct (q c) eqn:Hc; [done|]. cbn. exact Hc.
Qed.

Lemma stored_path_of_line line path label :
  sample_of_line line = Py.Ok (path, label) ->
  forall_chars not_space path = true /\ starts_with dot_or_slash path = false.
Proof.
  unfold sample_of_line. pose proof (split_from_tokens "" (Py.strip line) eq_refl) as Htok.
  fold (Py.split (Py.strip line)) in Htok.
  destruct (Py.split (Py.strip line)) as [|tok [|lab [|extra tokens]]]; try discriminate.
  destruct (Py.int lab) as [n|]; [|discriminate]. intros [= <- <-].
  inversion Htok as [|? ? [_ Hns] _]; subst. split.
  - by apply forall_chars_lstrip_by.
  - apply lstrip_by_starts.
Qed.

(** X3: every path in an index built by [__init__] is free of
    whitespace and starts with neither '.' nor '/': leading dots and
    slashes of the manifest token are all gone (the path may be empty). *)
Theorem stored_paths_have_no_leading_dot_or_slash fs root txt training ds :
  Py.outcome (GarbageDataset_init fs root txt training) = Py.Ok ds ->
  Forall (fun s => forall_chars not_space (fst s) = true /\
                   starts_with dot_or_slash (fst s) = false) (data ds).
Proof.
  intros Hinit. eapply init_data_Forall; [|exact Hinit].
  intros line [path label]. apply stored_path_of_line.
Qed.

Lemma stored_paths_have_no_leading_dot_or_slash_witness :
  Forall (fun s => forall_chars not_space (fst s) = true /\
                   starts_with dot_or_slash (fst s) = false)
         [("abs/a.jpg", 1%Z); ("", 2%Z); ("b.jpg", 3%Z)].
Proof.
  apply (stored_paths_have_no_leading_dot_or_slash (train_txt manifest_odd_paths)
           "garbage" "train.txt" true
           {| root_dir := "garbage"; is_training := true;
              data := [("abs/a.jpg", 1%Z); ("", 2%Z); ("b.jpg", 3%Z)];
              num_samples := 3 |}).
  reflexivity.
Defined.

Lemma prefix_append (a b : string) : String.prefix a (a +:+ b) = true.
Proof.
  induction a as [|c a IH]; [by destruct b|].
  rewrite append_cons. cbn. destruct (ascii_dec c c); [exact IH|done].
Qed.

Lemma path_join_relative root path :
  starts_with dot_or_slash path = false ->
  String.prefix root (Py.path_join root path) = true.
Proof.
  intros Hstart. unfold Py.path_join.
  assert (Hsep : Py.startswith_sep path = false).
  { destruct path as [|c path]; [done|]. cbn in Hstart.
    unfold dot_or_slash in Hstart. cbn in Hstart.
    apply orb_false_iff in Hstart as [_ Hslash].
    apply orb_false_iff in Hslash as [Hslash _].
    apply Ascii.eqb_neq in Hslash.
    unfold Py.startswith_sep.
    destruct c as [[] [] [] [] [] [] [] []]; try reflexivity. done. }
  rewrite Hsep.
  destruct (match root with "" => true | String _ _ => Py.endswith_sep root end);
    apply prefix_append.
Qed.

(** X4: the file that [preprocess_image] opens for a sample of an index
    built by [__init__] is always named under [root_dir]: the stored
    path never being absolute, [os.path.join] never discards the root. *)
Theorem image_paths_stay_under_root fs root txt training ds :
  Py.outcome (GarbageDataset_init fs root txt training) = Py.Ok ds ->
  root_dir ds = root /\
  Forall (fun s => String.prefix (root_dir ds)
                     (Py.path_join (root_dir ds) (fst s)) = true) (data ds).
Proof.
  intros Hinit.
  destruct (init_data_Forall
              (fun s => String.prefix root (Py.path_join root (fst s)) = true)
              fs root txt training ds) as (Hall & Hroot & _); [|exact Hinit|].
  - intros line [path label] Hs. apply path_join_relative.
    by apply (stored_path_of_line line path label).
  - split; [done|]. by rewrite Hroot.
Qed.

Lemma image_paths_stay_under_root_witness :
  Forall (fun s => String.prefix "garbage" (Py.path_join "garbage" (fst s)) = true)
         [("abs/a.jpg", 1%Z); ("", 2%Z); ("b.jpg", 3%Z)].
Proof.
  apply (image_paths_stay_under_root (train_txt manifest_odd_paths)
           "garbage" "train.txt" true
           {| root_dir := "garbage"; is_training := true;
              data := [("abs/a.jpg", 1%Z); ("", 2%Z); ("b.jpg", 3%Z)];
              num_samples := 3 |}).
  reflexivity.
Defined.

(** ** Writing a manifest and reading it back *)

















(** ** main *)






(** ** The image loader, further *)

(** X7: in validation mode [preprocess_image] does not look at the random
    draws and needs nothing of [cv2.resize]: it returns the decoded image
    scaled by 1/255, or the all-zero image with the warning. *)
Theorem validation_mode_ignores_draws imdecode resize fs self rnd rnd' img_path :
  is_training self = false ->
  preprocess_image imdecode resize fs self rnd img_path
  = preprocess_image imdecode resize fs self rnd' img_path
  /\ preprocess_image imdecode resize fs self rnd img_path
     = match imread imdecode fs (Py.path_join (root_dir self) img_path) with
       | Some m =>
           ([], Py.Ok (astype_float32_div255
                         (resize (cvtColor_BGR2RGB m) (IMG_SIZE, IMG_SIZE))))
       | None =>
           (["警告：无法读取图片 " +:+ img_path], Py.Ok (zeros IMG_SIZE IMG_SIZE 3))
       end.
Proof.
  intros Hval. unfold preprocess_image, convert_to_tensor.
  destruct (imread imdecode fs (Py.path_join (root_dir self) img_path)) as [m|];
    by rewrite Hval.
Qed.

Lemma validation_mode_ignores_draws_witness :
  preprocess_image one_pixel_decode nearest_resize one_image (validation_set [])
    brighter "a.jpg"
  = preprocess_image one_pixel_decode nearest_resize one_image (validation_set [])
      turned "a.jpg".
Proof.
  apply (validation_mode_ignores_draws one_pixel_decode nearest_resize one_image
           (validation_set []) brighter turned "a.jpg").
  reflexivity.
Defined.

(** X8: the only line [preprocess_image] ever prints is the warning for
    an unreadable file: the NaN check never fires and the augmentation
    never raises, so neither of their fallbacks is taken. *)
Theorem only_unreadable_warning_is_printed imdecode resize fs self rnd img_path :
  (forall m w h,
      length (resize m (w, h)) = h /\
      Forall (fun row => length row = w) (resize m (w, h))) ->
  fst (preprocess_image imdecode resize fs self rnd img_path)
  = match imread imdecode fs (Py.path_join (root_dir self) img_path) with
    | Some _ => []
    | None => ["警告：无法读取图片 " +:+ img_path]
    end.
Proof.
  intros Hresize.
  destruct (imread imdecode fs (Py.path_join (root_dir self) img_path))
    as [m|] eqn:Hread.
  - by rewrite (preprocess_image_decoded _ _ Hresize _ _ _ _ _ Hread).
  - by rewrite preprocess_image_unreadable.
Qed.

Lemma only_unreadable_warning_is_printed_witness :
  fst (preprocess_image one_pixel_decode nearest_resize one_image
         (training_set []) turned "a.jpg") = [].
Proof.
  apply (only_unreadable_warning_is_printed one_pixel_decode nearest_resize one_image
           (training_set []) turned "a.jpg" nearest_resize_dsize).
Defined.

Lemma Permutation_concat {A} (l l' : list (list A)) :
  Permutation l l' -> Permutation (concat l) (concat l').
Proof.
  induction 1 as [|x l l' _ IH|x y l|l l' l'' _ IH1 _ IH2]; cbn.
  - done.
  - by apply Permutation_app_head.
  - rewrite !app_assoc. apply Permutation_app_tail, Permutation_app_comm.
  - by etransitivity.
Qed.

Lemma concat_reverse1 {A} (v : list (list A)) :
  Permutation (concat (reverse1 v)) (concat v).
Proof.
  unfold reverse1. induction v as [|row v IH]; cbn; [done|].
  apply Permutation_app; [symmetry; apply Permutation_rev|exact IH].
Qed.

Lemma concat_reverse0 {A} (v : list (list A)) :
  Permutation (concat (reverse0 v)) (concat v).
Proof. apply Permutation_concat. symmetry. apply Permutation_rev. Qed.

Lemma concat_zip_with_cons {A} (row : list A) (cols : list (list A)) :
  length row = length cols ->
  Permutation (concat (zip_with cons row cols)) (row ++ concat cols).
Proof.
  revert cols. induction row as [|x row IH]; intros [|col cols]; cbn; try done.
  intros [= Hlen]. constructor.
  rewrite (IH cols Hlen). rewrite !app_assoc.
  apply Permutation_app_tail, Permutation_app_comm.
Qed.

Lemma concat_transpose_w {A} w (v : list (list A)) :
  Forall (fun row => length row = w) v ->
  Permutation (concat (transpose_w w v)) (concat v).
Proof.
  induction 1 as [|row rest Hrow Hrest IH]; cbn.
  - induction w; cbn; done.
  - rewrite concat_zip_with_cons.
    + by apply Permutation_app_head.
    + by rewrite transpose_w_length.
Qed.

Lemma concat_transpose {A} w (v : list (list A)) :
  Forall (fun row => length row = w) v ->
  Permutation (concat (transpose v)) (concat v).
Proof.
  intros Hrows. unfold transpose. destruct Hrows as [|row rest Hrow Hrest]; [done|].
  cbn [hd]. rewrite Hrow. apply concat_transpose_w. by constructor.
Qed.

Lemma concat_rot90 {A} w k (v : list (list A)) :
  Forall (fun row => length row = w) v ->
  Permutation (concat (rot90_values k v)) (concat v).
Proof.
  intros Hrows.
  assert (Hrev : Forall (fun row => length row = w) (reverse1 v)).
  { unfold reverse1. apply Forall_map. eapply Forall_impl; [exact Hrows|].
    intros row. by rewrite length_rev. }
  destruct (rot90_cases k v) as [-> | [-> | [-> | ->]]].
  - done.
  - rewrite (concat_transpose w) by done. apply concat_reverse1.
  - rewrite concat_reverse0. apply concat_reverse1.
  - rewrite concat_reverse1. by apply (concat_transpose w).
Qed.

Lemma concat_random_flips coin_lr coin_ud t w :
  Forall (fun row => length row = w) (t_values t) ->
  Permutation
    (concat (t_values (random_flip_up_down coin_ud (random_flip_left_right coin_lr t))))
    (concat (t_values t))
  /\ Forall (fun row => length row = w)
       (t_values (random_flip_up_down coin_ud (random_flip_left_right coin_lr t))).
Proof.
  intros Hrows.
  assert (Hrev1 : Forall (fun row => length row = w) (reverse1 (t_values t))).
  { unfold reverse1. apply Forall_map. eapply Forall_impl; [exact Hrows|].
    intros row. by rewrite length_rev. }
  destruct coin_lr, coin_ud;
    cbn [random_flip_up_down random_flip_left_right over_values t_values];
    (split; [|by try apply Forall_rev']).
  - rewrite concat_reverse0. apply concat_reverse1.
  - apply concat_reverse1.
  - apply concat_reverse0.
  - done.
Qed.

Lemma concat_map3 {A B} (f : A -> B) v :
  concat (map3 f v) = map (map f) (concat v).
Proof. unfold map3. by rewrite concat_map. Qed.

(** X9: in training mode the augmentation of a decoded image only moves
    pixels and applies to every value the same brightness shift and
    clamp: the pixels of the result are, up to order, those of the scaled
    image with each channel shifted by the draw and clamped to [0, 1];
    channels of a pixel stay together and in order. *)
Theorem augmentation_moves_pixels imdecode resize fs self rnd img_path m :
  (forall m w h,
      length (resize m (w, h)) = h /\
      Forall (fun row => length row = w) (resize m (w, h))) ->
  is_training self = true ->
  imread imdecode fs (Py.path_join (root_dir self) img_path) = Some m ->
  exists out,
    Py.outcome (preprocess_image imdecode resize fs self rnd img_path) = Py.Ok out /\
    Permutation
      (concat (t_values out))
      (map (map (fun x => fclip 0 1 (fadd (delta rnd) x)))
           (concat (t_values (astype_float32_div255
                                (resize (cvtColor_BGR2RGB m) (IMG_SIZE, IMG_SIZE)))))).
Proof.
  intros Hresize Htrain Hread.
  rewrite (preprocess_image_decoded _ _ Hresize _ _ _ _ _ Hread), Htrain.
  eexists. split; [reflexivity|].
  set (img := astype_float32_div255 _).
  assert (Hrows : Forall (fun row => length row = IMG_SIZE) (t_values img)).
  { destruct (decoded_tensor_ok resize Hresize m) as (_ & Hshape & _).
    by apply has_shape_rows in Hshape as (_ & Hrows & _). }
  destruct (concat_random_flips (flip_lr rnd) (flip_ud rnd) img IMG_SIZE Hrows)
    as [Hflips Hrows'].
  cbn [clip_by_value adjust_brightness rot90 over_values t_values].
  rewrite !concat_map3, map_map.
  rewrite (map_ext (map (fun x => fclip 0 1 (fadd (delta rnd) x)))
             (fun px => map (fclip 0 1) (map (fadd (delta rnd)) px)))
    by (intros px; by rewrite map_map).
  apply Permutation_map.
  rewrite (concat_rot90 IMG_SIZE) by done. exact Hflips.
Qed.

Lemma augmentation_moves_pixels_witness :
  exists out,
    Py.outcome (preprocess_image one_pixel_decode nearest_resize one_image
                  (training_set []) turned "a.jpg") = Py.Ok out /\
    Permutation
      (concat (t_values out))
      (map (map (fun x => fclip 0 1 (fadd (delta turned) x)))
           (concat (t_values (astype_float32_div255
                                (nearest_resize
                                   (cvtColor_BGR2RGB [[("a"%byte, "b"%byte, "c"%byte)]])
                                   (IMG_SIZE, IMG_SIZE)))))).
Proof.
  apply (augmentation_moves_pixels one_pixel_decode nearest_resize one_image
           (training_set []) turned "a.jpg" [[("a"%byte, "b"%byte, "c"%byte)]]
           nearest_resize_dsize); reflexivity.
Defined.

(** ** The generator and the batches, further *)

Lemma labels_along_all self :
  labels_along self (seq 0 (length (data self))) = map snd (data self).
Proof.
  unfold labels_along.
  assert (Hgen : forall (l pre : list (string * Z)),
            omap (fun idx => snd <$> (pre ++ l) !! idx) (seq (length pre) (length l))
            = map snd l).
  { induction l as [|x l IH]; intros pre; [done|].
    cbn [length seq map]. change (omap ?f (?i :: ?r)) with
      (match f i with Some y => y :: omap f r | None => omap f r end).
    cbn beta. rewrite list_lookup_middle by done. cbn [fmap option_fmap option_map].
    f_equal. specialize (IH (pre ++ [x])).
    rewrite <- app_assoc, length_app in IH. cbn in IH.
    by rewrite Nat.add_1_r in IH. }
  exact (Hgen (data self) []).
Qed.

(** X10: one pass of the generator visits every sample of a non-empty
    index exactly once: the [N] elements yielded between two reshuffles
    carry, up to order, the labels of the index, and the generator is
    then between two passes again. *)
Theorem pass_visits_each_sample_once imdecode resize fs self np_permutation tf_draws p :
  (forall m w h,
      length (resize m (w, h)) = h /\
      Forall (fun row => length row = w) (resize m (w, h))) ->
  (forall j n, Permutation (np_permutation j n) (seq 0 n)) ->
  0 < length (data self) ->
  exists xs,
    Py.outcome (gen_take imdecode resize fs self np_permutation tf_draws 1
                  (length (data self)) (pass_boundary (length (data self)) p))
    = Py.Ok (Some (xs, pass_boundary (length (data self)) (S p))) /\
    length xs = length (data self) /\
    Permutation (map snd xs) (map snd (data self)).
Proof.
  intros Hresize Hperm Hne.
  rewrite gen_take_outcome by (done || constructor).
  rewrite advance_n_pass by done. cbn [fst snd].
  eexists. split; [reflexivity|]. split.
  - by rewrite expected_items_length, (permutation_length np_permutation Hperm).
  - rewrite expected_items_labels by apply (permutation_in_range np_permutation Hperm).
    rewrite <- labels_along_all. unfold labels_along.
    apply omap_Permutation, Hperm.
Qed.

Lemma pass_visits_each_sample_once_witness :
  exists xs,
    Py.outcome (gen_take one_pixel_decode nearest_resize ∅ (training_set forty_samples)
                  back_and_forth same_draws 1
                  (length (data (training_set forty_samples)))
                  (pass_boundary (length (data (training_set forty_samples))) 3))
    = Py.Ok (Some (xs, pass_boundary (length (data (training_set forty_samples))) 4)) /\
    length xs = length (data (training_set forty_samples)) /\
    Permutation (map snd xs) (map snd (data (training_set forty_samples))).
Proof.
  apply (pass_visits_each_sample_once one_pixel_decode nearest_resize ∅
           (training_set forty_samples) back_and_forth same_draws 3
           nearest_resize_dsize back_and_forth_permutation).
  rewrite forty_samples_length. lia.
Defined.

(** X11: batching drops and repeats nothing: the first [n] batches of
    the dataset, laid end to end, are the first [32 * n] elements of the
    generator in the same order; every batch is full, and the generator
    is left in the same frame either way. *)
Theorem batches_are_the_element_stream imdecode resize fs self np_permutation tf_draws n :
  (forall m w h,
      length (resize m (w, h)) = h /\
      Forall (fun row => length row = w) (resize m (w, h))) ->
  (forall j n, Permutation (np_permutation j n) (seq 0 n)) ->
  0 < length (data self) ->
  Forall (fun s => int32_ok (snd s) = true) (data self) ->
  exists bs st',
    Py.outcome (dataset_take
                  (create_dataset imdecode resize fs self np_permutation tf_draws)
                  1 n generator)
    = Py.Ok (Some (bs, st')) /\
    Py.outcome (gen_take imdecode resize fs self np_permutation tf_draws 1
                  (n * BATCH_SIZE) generator)
    = Py.Ok (Some (concat bs, st')) /\
    length bs = n /\
    Forall (fun b => length b = BATCH_SIZE) bs.
Proof.
  intros Hresize Hperm Hne Hint.
  assert (Hstart : frame_ok self generator) by constructor.
  destruct (advance_batches_frame_ok self np_permutation Hperm Hne n generator Hstart)
    as (_ & Hlen & Hall).
  destruct (expected_batches_concat imdecode resize fs self np_permutation tf_draws
              Hperm Hne n generator Hstart) as [Hcat Hfin].
  eexists _, _. split; [by apply dataset_take_batches|].
  split; [by rewrite gen_take_outcome, Hcat, Hfin|].
  split; [by unfold expected_batches; rewrite length_map|].
  unfold expected_batches. apply Forall_map.
  eapply Forall_impl; [exact Hall|]. intros [u idxs] [Hb _].
  by rewrite expected_items_length.
Qed.

Lemma batches_are_the_element_stream_witness :
  exists bs st',
    Py.outcome (dataset_take
                  (create_dataset one_pixel_decode nearest_resize ∅
                     (training_set forty_samples) back_and_forth same_draws)
                  1 5 generator)
    = Py.Ok (Some (bs, st')) /\
    Py.outcome (gen_take one_pixel_decode nearest_resize ∅ (training_set forty_samples)
                  back_and_forth same_draws 1 (5 * BATCH_SIZE) generator)
    = Py.Ok (Some (concat bs, st')) /\
    length bs = 5 /\
    Forall (fun b => length b = BATCH_SIZE) bs.
Proof.
  apply (batches_are_the_element_stream one_pixel_decode nearest_resize ∅
           (training_set forty_samples) back_and_forth same_draws 5
           nearest_resize_dsize back_and_forth_permutation).
  - rewrite forty_samples_length. lia.
  - exact forty_samples_int32.
Defined.

(** X12: with an empty index (an empty manifest) the generator draws
    empty permutations for ever: resuming it never yields, whatever the
    fuel, the dataset never delivers a batch, and [main] asks for 0 steps
    per epoch. *)
Theorem empty_index_starves_training imdecode resize fs self other np_permutation tf_draws :
  data self = [] ->
  num_samples self = length (data self) ->
  (forall j n, Permutation (np_permutation j n) (seq 0 n)) ->
  (forall fuel,
     gen_next imdecode resize fs self np_permutation tf_draws fuel generator
     = ([], Py.Ok Looping))
  /\ (forall fuel n,
        Py.outcome (dataset_take
                      (create_dataset imdecode resize fs self np_permutation tf_draws)
                      fuel (S n) generator) = Py.Ok None)
  /\ steps_per_epoch (main_fit_args self other) = 0
  /\ validation_steps (main_fit_args other self) = 0.
Proof.
  intros Hdata Hnum Hperm.
  assert (Hnil : forall j, np_permutation j 0 = []).
  { intros j. apply Permutation_nil. symmetry. exact (Hperm j 0). }
  assert (Hloop : forall fuel,
            gen_next imdecode resize fs self np_permutation tf_draws fuel generator
            = ([], Py.Ok Looping)).
  { intros fuel. by apply empty_index_never_yields. }
  split; [exact Hloop|]. split.
  - intros fuel n. cbn [dataset_take].
    change (get_next (create_dataset imdecode resize fs self np_permutation tf_draws)
              fuel generator)
      with (dataset_take (from_generator imdecode resize fs self np_permutation tf_draws)
              fuel BATCH_SIZE generator).
    unfold BATCH_SIZE. cbn [dataset_take get_next from_generator].
    rewrite outcome_bind, outcome_bind, Hloop. reflexivity.
  - cbn. by rewrite Hnum, Hdata.
Qed.

Lemma empty_index_starves_training_witness :
  gen_next one_pixel_decode nearest_resize ∅ (training_set []) back_and_forth
    same_draws 1000 generator
  = ([], Py.Ok Looping).
Proof.
  destruct (empty_index_starves_training one_pixel_decode nearest_resize ∅
              (training_set []) (validation_set []) back_and_forth same_draws
              eq_refl eq_refl back_and_forth_permutation) as [Hloop _].
  exact (Hloop 1000).
Defined.

(** ** The learning rate over a whole training run *)

Lemma Qltb_true_inv a b : Keras.Qltb a b = true -> (a < b)%Q.
Proof.
  unfold Keras.Qltb. intros Hlt%negb_true_iff. apply Qnot_le_lt.
  intros Hle%Qle_bool_iff. congruence.
Qed.

(** What one epoch can do to the callback, once out of cool-down. *)
Lemma on_epoch_end_cases factor patience st current :
  Keras.cooldown_counter st = 0 ->
  let st' := Keras.on_epoch_end factor patience st current in
  Keras.cooldown_counter st' = 0 /\
  ((Keras.lr st' = Keras.lr st /\ Keras.wait st' <= S (Keras.wait st)) \/
   (Keras.lr st' = Qmax (Keras.lr st * factor) 0 /\ Keras.wait st' = 0 /\
    patience <= S (Keras.wait st) /\ (0 < Keras.lr st)%Q)).
Proof.
  destruct st as [lr0 best0 wait0 cooling]. cbn [Keras.cooldown_counter Keras.lr
    Keras.wait]. intros ->.
  unfold Keras.on_epoch_end, Keras.in_cooldown.
  cbn [Keras.best Keras.wait Keras.cooldown_counter Keras.lr Nat.ltb Nat.leb negb].
  destruct (Keras.monitor_op current best0).
  { cbn. split; [done|]. left. split; [done|lia]. }
  destruct (Nat.leb_spec patience (S wait0)) as [Hp|Hp]; cbn [andb].
  - destruct (Keras.Qltb Keras.min_lr lr0) eqn:Hlr.
    + cbn. split; [done|]. right. repeat split; [done|].
      by apply Qltb_true_inv in Hlr.
    + cbn. split; [done|]. left. split; [done|lia].
  - cbn. split; [done|]. left. split; [done|lia].
Qed.

Lemma Qpow_pos q k : (0 < q)%Q -> (0 < Qpow q k)%Q.
Proof.
  intros Hq. induction k as [|k IH]; cbn; [reflexivity|].
  by apply Qmult_lt_0_compat.
Qed.

Lemma Qpow_le_1 q k : (0 < q)%Q -> (q <= 1)%Q -> (Qpow q k <= 1)%Q.
Proof.
  intros Hpos Hq. induction k as [|k IH]; cbn; [discriminate|].
  change (q * Qpow q k <= 1 * 1)%Q.
  apply Qmult_le_compat_nonneg.
  - split; [by apply Qlt_le_weak|done].
  - split; [apply Qlt_le_weak; by apply Qpow_pos|done].
Qed.

(** The state of the callback list of [main] after some epochs: the rate
    has been multiplied by 0.2 some [k] times, and each time took two
    epochs. *)
Lemma main_callbacks_invariant train_dataset val_dataset lr0 losses st n :
  (0 < lr0)%Q ->
  Keras.cooldown_counter st = 0 ->
  (exists k, 2 * k + Keras.wait st <= n /\ (Keras.lr st == lr0 * Qpow (2 # 10) k)%Q) ->
  let st' := fold_left
               (callbacks_on_epoch_end (callbacks (main_fit_args train_dataset val_dataset)))
               losses st in
  Keras.cooldown_counter st' = 0 /\
  exists k, 2 * k + Keras.wait st' <= n + length losses /\
            (Keras.lr st' == lr0 * Qpow (2 # 10) k)%Q.
Proof.
  intros Hlr0. revert st n. induction losses as [|loss losses IH]; intros st n Hcool Hinv.
  - cbn. split; [done|]. destruct Hinv as (k & Hk & Hlr). exists k. split; [lia|done].
  - cbn [fold_left length].
    replace (n + S (length losses)) with (S n + length losses) by lia.
    apply IH; cbn [callbacks main_fit_args callbacks_on_epoch_end fold_left
                   callback_on_epoch_end];
      destruct (on_epoch_end_cases (2 # 10) 2 st loss Hcool)
        as (Hcool' & [[Hsame Hwait] | (Hred & Hwait & Hpat & Hpos)]); try done.
    + destruct Hinv as (k & Hk & Hlr). exists k. split; [lia|by rewrite Hsame].
    + destruct Hinv as (k & Hk & Hlr). exists (S k). split; [lia|].
      rewrite Hred, Q.max_l.
      * rewrite Hlr. cbn [Qpow]. ring.
      * apply Qmult_le_0_compat; [by apply Qlt_le_weak|discriminate].
Qed.

(** X13: whatever the validation losses of a run, the learning rate that
    the callbacks of [main] leave is the initial 0.001 multiplied by 0.2
    some [k] times, with at most one reduction per two epochs; so it
    stays positive and never exceeds 0.001. *)
Theorem learning_rate_is_reduced_by_fifths train_dataset val_dataset losses :
  let args := main_fit_args train_dataset val_dataset in
  exists k,
    2 * k <= length losses /\
    (lr_after args losses == learning_rate args * Qpow (2 # 10) k)%Q /\
    (0 < lr_after args losses)%Q /\
    (lr_after args losses <= learning_rate args)%Q.
Proof.
  intros args. unfold lr_after.
  destruct (main_callbacks_invariant train_dataset val_dataset (learning_rate args)
              losses (Keras.on_train_begin (learning_rate args)) 0)
    as (_ & k & Hk & Hlr).
  - reflexivity.
  - reflexivity.
  - exists 0. split; [cbn; lia|]. cbn. ring.
  - fold args in Hlr. exists k. split; [lia|]. split; [exact Hlr|].
    rewrite Hlr. split.
    + apply Qmult_lt_0_compat; [reflexivity|by apply Qpow_pos].
    + apply Qle_trans with (learning_rate args * 1)%Q.
      * apply Qmult_le_l; [reflexivity|]. by apply Qpow_le_1.
      * rewrite Qmult_1_r. apply Qle_refl.
Qed.

(** ** The files written at the end of main *)



(** ** configure_gpu *)

(** X15: [configure_gpu] handles a [RuntimeError] wherever the library
    raises it, in the loop over the GPUs or when the logical devices are
    listed: it never lets one escape.  Unless another exception escapes it
    prints exactly one line, and when one does it prints nothing.  Without
    a GPU the runtime context is not touched. *)
Theorem configure_gpu_catches_RuntimeError {Ctx PhysicalDevice LogicalDevice : Type}
    (list_physical_devices : Ctx -> list PhysicalDevice)
    (set_memory_growth : Ctx -> PhysicalDevice -> Ctx * option Config.error)
    (list_logical_devices : Ctx -> Ctx * (list LogicalDevice + Config.error))
    (ctx : Ctx) :
  let r := configure_gpu list_physical_devices set_memory_growth
             list_logical_devices ctx in
  (forall msg, Config.escaped r <> Some (Config.RuntimeError msg))
  /\ (Config.escaped r = None <-> length (Config.stdout r) = 1)
  /\ (Config.escaped r <> None -> Config.stdout r = [])
  /\ (list_physical_devices ctx = [] -> Config.context r = ctx).
Proof.
  intros r. subst r. unfold configure_gpu.
  destruct (list_physical_devices ctx) as [|gpu gpus] eqn:Hgpus.
  { cbn. repeat split; try done. }
  assert (Hhandler : forall (c : Ctx) e,
    let r := except_RuntimeError c e in
    (forall msg, Config.escaped r <> Some (Config.RuntimeError msg))
    /\ (Config.escaped r = None <-> length (Config.stdout r) = 1)
    /\ (Config.escaped r <> None -> Config.stdout r = [])).
  { intros c [msg|e]; cbn; repeat split; try done. }
  destruct (enable_growth set_memory_growth ctx (gpu :: gpus)) as [ctx1 [e|]].
  { destruct (Hhandler ctx1 e) as (H1 & H2 & H3). repeat split; try done; apply H2. }
  destruct (list_logical_devices ctx1) as [ctx2 [logical|e]].
  - cbn. repeat split; try done.
  - destruct (Hhandler ctx2 e) as (H1 & H2 & H3). repeat split; try done; apply H2.
Qed.

Lemma configure_gpu_catches_RuntimeError_witness :
  let r := configure_gpu (λ _ : list nat, [0; 1])
             (λ ctx gpu,
                if Nat.eqb gpu 1
                then (ctx, Some (Config.RuntimeError
                                   "Physical devices cannot be modified after being initialized"))
                else (gpu :: ctx, None))
             (λ ctx, (ctx, inl [()])) [] in
  Config.escaped r = None /\ length (Config.stdout r) = 1 /\ Config.context r = [0].
Proof.
  intros r. split; [reflexivity|]. split; [|reflexivity].
  apply (configure_gpu_catches_RuntimeError (λ _ : list nat, [0; 1])
           (λ ctx gpu,
              if Nat.eqb gpu 1
              then (ctx, Some (Config.RuntimeError
                                 "Physical devices cannot be modified after being initialized"))
              else (gpu :: ctx, None))
           (λ ctx, (ctx, inl [()])) []).
  reflexivity.
Defined.
